(** * CBL_Report: the chart catalogue behind the dashboard

    A shallow embedding of [CBL_Report.py]: the catalogue scanner, the
    filter / sort / paginate functions, the namespaced session state, the
    figure loader and the batch display loop, followed by the properties
    of the catalogue's specification that can be stated over them.

    Conventions of the embedding.
    - A Python [str] is a [string]; file names are taken over the ASCII
      repertoire, so [str.lower] maps the letters [A-Z] and nothing else.
    - A Python [int] is a [Z].
    - The metadata tuple [(name, last_modified, size, path)] is a 4-tuple,
      read with [item0] .. [item3] as the code reads [f[0]] .. [f[3]].
    - [st.session_state] is a finite map from keys to values; every call
      into the presentation layer and every file read is appended to a log.
    - A raised exception is a class and a message; [try]/[except] is a
      match on the class. *)

From Stdlib Require Import ZArith Lia Bool Ascii String List.
From stdpp Require Import base tactics option list sorting strings gmap.

Local Open Scope string_scope.
Local Open Scope Z_scope.

(** ** Python values the program relies on *)

Module Py.

(** The exception classes the program names, and the ones its
    [except Exception] clauses have to tell apart. *)
Inductive exn_class : Type :=
| Exception
| ValueError
| JSONDecodeError
| KeyError
| OSError
| FileNotFoundError
| PermissionError
| TypeError.

Record exn : Type := mkExn { exn_cls : exn_class; exn_msg : string }.

(** [isinstance(e, c)]: the class hierarchy of the standard library. *)
Definition subclass (c d : exn_class) : bool :=
  match d, c with
  | Exception, _ => true
  | ValueError, (ValueError | JSONDecodeError) => true
  | OSError, (OSError | FileNotFoundError | PermissionError) => true
  | JSONDecodeError, JSONDecodeError => true
  | KeyError, KeyError => true
  | FileNotFoundError, FileNotFoundError => true
  | PermissionError, PermissionError => true
  | TypeError, TypeError => true
  | _, _ => false
  end.

Definition isinstance (e : exn) (c : exn_class) : bool :=
  subclass (exn_cls e) c.

(** [f"{e}"] *)
Definition str_of_exn (e : exn) : string := exn_msg e.

(** The outcome of an expression that may raise. *)
Inductive result (A : Type) : Type :=
| Ok (a : A)
| Raise (e : exn).
Arguments Ok {A} a.
Arguments Raise {A} e.

(** Truth value of a [str] and of a [list]. *)
Definition str_truthy (s : string) : bool :=
  match s with "" => false | _ => true end.

Definition list_truthy {A} (l : list A) : bool :=
  match l with [] => false | _ => true end.

(** [str.lower] on ASCII text. *)
Definition lower_ascii (c : ascii) : ascii :=
  let n := N_of_ascii c in
  if ((65 <=? n) && (n <=? 90))%N then ascii_of_N (n + 32) else c.

Fixpoint lower (s : string) : string :=
  match s with
  | "" => ""
  | String c s' => String (lower_ascii c) (lower s')
  end.

(** [t in s] for two strings: [t] occurs in [s] as a substring. *)
Fixpoint str_in (t s : string) : bool :=
  String.prefix t s ||
  match s with
  | "" => false
  | String _ s' => str_in t s'
  end.

(** [any(p(t) for t in ts)] *)
Definition any {A} (p : A -> bool) (ts : list A) : bool := existsb p ts.

(** [l[start:stop]] with step 1: negative bounds count from the end,
    and both are clamped into the list. *)
Definition slice_bound (len i : Z) : nat :=
  Z.to_nat (Z.min len (Z.max 0 (if i <? 0 then i + len else i))).

Definition slice {A} (l : list A) (start stop : Z) : list A :=
  let len := Z.of_nat (length l) in
  let a := slice_bound len start in
  let b := slice_bound len stop in
  take (b - a) (drop a l).

End Py.

Import Py.

(** ** File metadata *)

Definition FileMeta : Type := string * string * Z * string.

Definition item0 (f : FileMeta) : string := let '(n, _, _, _) := f in n.
Definition item1 (f : FileMeta) : string := let '(_, m, _, _) := f in m.
Definition item2 (f : FileMeta) : Z := let '(_, _, s, _) := f in s.
Definition item3 (f : FileMeta) : string := let '(_, _, _, p) := f in p.

(** ** Filtering *)

Definition filter_charts (files_metadata : list FileMeta)
    (search_query : string) (selected_types : list string) : list FileMeta :=
  let search_term :=
    if str_truthy search_query then lower search_query else "" in
  if negb (str_truthy search_term) && negb (list_truthy selected_types)
  then files_metadata
  else
    List.filter
      (fun f =>
         str_in search_term (lower (item0 f))
         && (negb (list_truthy selected_types)
             || any (fun t => str_in t (item0 f)) selected_types))
      files_metadata.

(** ** Paths

    A [pathlib.Path] is kept as its POSIX rendering. *)

Record Path : Type := PosixPath { as_posix : string }.

(** [Path(s)]: the empty string denotes the current directory. *)
Definition Path_of (s : string) : Path :=
  PosixPath (if str_truthy s then s else ".").

(** [str(p)] *)
Definition Path_str (p : Path) : string := as_posix p.

Fixpoint basename (s : string) : string :=
  match s with
  | "" => ""
  | String c s' =>
      if str_in "/" s' then basename s'
      else if Ascii.eqb c "/" then s' else s
  end.

(** [p.name]: the last component; the current directory has none. *)
Definition Path_name (p : Path) : string :=
  if String.eqb (as_posix p) "." then "" else basename (as_posix p).

(** [parent / child] *)
Definition joinpath (parent : Path) (child : string) : Path :=
  PosixPath (as_posix parent +:+ "/" +:+ child).

(** [s.replace(a, b)] for single characters. *)
Fixpoint replace (a b : ascii) (s : string) : string :=
  match s with
  | "" => ""
  | String c s' => String (if Ascii.eqb c a then b else c) (replace a b s')
  end.

Definition DEFAULT_PAGE_SIZE : Z := 10.

Definition get_page_prefix (chart_dir : Path) : string :=
  "page_" +:+ replace "/" "_" (as_posix chart_dir) +:+ "_".

(** ** Session state and the screen *)

Inductive value : Type :=
| VNone
| VBool (b : bool)
| VInt (n : Z)
| VStr (s : string)
| VStrs (l : list string)
| VFiles (l : list FileMeta).

(** What the presentation layer has been asked to show, and which files
    have been opened for reading. *)
Inductive event : Type :=
| ErrorBox (msg : string)
| WarningBox (msg : string)
| InfoBox (msg : string)
| PlainBox (msg : string)
| Title (text : string)
| Instructions
| MetadataLine (f : FileMeta)
| ReadFile (path : string)
| PlotlyChart (key : string) (fig_json : string) (height : Z)
| SelectChart (options : list string) (disabled : bool)
| CancelButton (disabled : bool)
| PaginationControls (page_number total_pages : Z).

Record World : Type := mkWorld {
  session_state : gmap string value;
  log : list event
}.

(** A computation over the world that returns or raises. *)
Definition M (A : Type) : Type := World -> result A * World.

Definition ret {A} (a : A) : M A := fun w => (Ok a, w).

Definition raise {A} (e : exn) : M A := fun w => (Raise e, w).

Definition bind {A B} (m : M A) (k : A -> M B) : M B :=
  fun w =>
    match m w with
    | (Ok a, w') => k a w'
    | (Raise e, w') => (Raise e, w')
    end.

Notation "x <- m ;; k" := (bind m (fun x => k))
  (at level 100, m at next level, right associativity).
Notation "m ;;; k" := (bind m (fun _ => k))
  (at level 100, right associativity).

(** [try: m  except c1 as e: h1 e  except c2 as e: h2 e ...]: the first
    clause whose class matches handles the exception; what a handler
    raises is not offered to the clauses after it. *)
Fixpoint select_clause {A} (e : exn) (clauses : list (exn_class * (exn -> M A)))
  : M A :=
  match clauses with
  | [] => raise e
  | (c, h) :: clauses' =>
      if isinstance e c then h e else select_clause e clauses'
  end.

Definition try_except {A} (m : M A) (clauses : list (exn_class * (exn -> M A)))
  : M A :=
  fun w =>
    match m w with
    | (Raise e, w') => select_clause e clauses w'
    | r => r
    end.

(** [[f(x) for x in xs]]: left to right, the first exception ends it. *)
Fixpoint comprehension {A B} (f : A -> M B) (xs : list A) : M (list B) :=
  match xs with
  | [] => ret []
  | x :: xs' =>
      y <- f x ;;
      ys <- comprehension f xs' ;;
      ret (y :: ys)
  end.

(** [try: m  finally: f] *)
Definition try_finally {A} (m : M A) (f : M unit) : M A :=
  fun w =>
    let '(r, w') := m w in
    match f w' with
    | (Ok _, w'') => (r, w'')
    | (Raise e, w'') => (Raise e, w'')
    end.

Definition lift {A} (r : result A) : M A := fun w => (r, w).

Definition show (ev : event) : M unit :=
  fun w => (Ok tt, mkWorld (session_state w) (log w ++ [ev])).

(** [st.session_state[key]] *)
Definition state_get (key : string) : M value :=
  fun w =>
    match session_state w !! key with
    | Some v => (Ok v, w)
    | None => (Raise (mkExn KeyError key), w)
    end.

(** [st.session_state[key] = v] *)
Definition state_set (key : string) (v : value) : M unit :=
  fun w => (Ok tt, mkWorld (<[key := v]> (session_state w)) (log w)).

(** Truth value of a stored value. *)
Definition truthy (v : value) : bool :=
  match v with
  | VNone => false
  | VBool b => b
  | VInt n => negb (n =? 0)
  | VStr s => str_truthy s
  | VStrs l => list_truthy l
  | VFiles l => list_truthy l
  end.

(** Reading a stored value where the code does arithmetic on it. *)
Definition as_int (v : value) : M Z :=
  match v with
  | VInt n => ret n
  | VBool b => ret (if b then 1 else 0)
  | _ => raise (mkExn TypeError "unsupported operand type(s)")
  end.

Definition as_files (v : value) : M (list FileMeta) :=
  match v with
  | VFiles l => ret l
  | _ => raise (mkExn TypeError "object is not a sequence of charts")
  end.

Definition SESSION_STATE_VARS : list (string * value) :=
  [ ("search_query", VStr "");
    ("selected_types", VStrs []);
    ("page_number", VInt 0);
    ("sort_by", VStr "Size");
    ("page_size", VInt DEFAULT_PAGE_SIZE);
    ("all_files", VFiles []);
    ("selected_chart", VNone);
    ("loading", VBool false);
    ("error", VNone);
    ("filtered_files", VFiles []);
    ("use_async", VBool false);
    ("loading_all_charts", VBool false) ].

Fixpoint init_loop (page_prefix : string) (vars : list (string * value))
  : M unit :=
  match vars with
  | [] => ret tt
  | (key, default_value) :: vars' =>
      (fun w =>
         match session_state w !! (page_prefix +:+ key) with
         | None => state_set (page_prefix +:+ key) default_value w
         | Some _ => (Ok tt, w)
         end) ;;;
      init_loop page_prefix vars'
  end.

Definition init_session_state (page_prefix : string) : M unit :=
  init_loop page_prefix SESSION_STATE_VARS.

Definition update_session_state (page_prefix key : string) (v : value)
  : M unit :=
  state_set (page_prefix +:+ key) v.

Definition clear_error (page_prefix : string) : M unit :=
  update_session_state page_prefix "error" VNone.

(** The message goes into the state and onto the screen, in the box that
    belongs to its severity; the copy sent to [logging] is left out. *)
Definition handle_error (page_prefix error_message error_type : string)
  : M unit :=
  update_session_state page_prefix "error" (VStr error_message) ;;;
  if String.eqb error_type "error" then show (ErrorBox error_message)
  else if String.eqb error_type "warning" then show (WarningBox error_message)
  else if String.eqb error_type "info" then show (InfoBox error_message)
  else show (PlainBox error_message).

(** ** Sorting *)

(** [sorted(l, reverse=r)] over a comparison [lt]: a stable sort that asks
    only [<] of its keys; with [reverse] the list is reversed before and
    after, so that equal keys keep their input order. *)
Section Sorted.
Context {A : Type} (lt : A -> A -> bool).

Fixpoint insert_sorted (x : A) (l : list A) : list A :=
  match l with
  | [] => [x]
  | y :: l' => if lt y x then y :: insert_sorted x l' else x :: y :: l'
  end.

Definition stable_sort (l : list A) : list A := foldr insert_sorted [] l.

Definition sorted_by (descending : bool) (l : list A) : list A :=
  if descending then reverse (stable_sort (reverse l)) else stable_sort l.
End Sorted.

(** A sort key returns a [str] or an [int]. *)
Inductive keyfn : Type :=
| StrKey (f : FileMeta -> string)
| IntKey (f : FileMeta -> Z).

Definition SORT_KEYS : gmap string keyfn :=
  list_to_map
    [ ("Name", StrKey (fun x => lower (item0 x)));
      ("Last Modified", StrKey (fun x => item1 x));
      ("Size", IntKey (fun x => item2 x)) ].

(** [x < y] on two metadata tuples: the first differing field decides. *)
Definition tuple_lt (x y : FileMeta) : bool :=
  if negb (String.eqb (item0 x) (item0 y)) then String.ltb (item0 x) (item0 y)
  else if negb (String.eqb (item1 x) (item1 y))
       then String.ltb (item1 x) (item1 y)
  else if negb (item2 x =? item2 y) then item2 x <? item2 y
  else String.ltb (item3 x) (item3 y).

(** The comparison [sorted] uses: on the keys, or on the items themselves
    when [key] is [None]. *)
Definition key_lt (key : option keyfn) (x y : FileMeta) : bool :=
  match key with
  | None => tuple_lt x y
  | Some (StrKey f) => String.ltb (f x) (f y)
  | Some (IntKey f) => f x <? f y
  end.

Definition sorted (files : list FileMeta) (key : option keyfn)
    (reverse : bool) : M (list FileMeta) :=
  ret (sorted_by (key_lt key) reverse files).

Definition sort_files (files : list FileMeta) (sort_by : string)
  : M (list FileMeta) :=
  try_except
    (sorted files (SORT_KEYS !! sort_by) (negb (String.eqb sort_by "Name")))
    [ (KeyError, fun _ =>
         handle_error (get_page_prefix (Path_of ""))
           ("Invalid sort key: " +:+ sort_by +:+ ". Using default sorting.")
           "warning" ;;;
         ret files) ].

(** ** Pagination *)

Definition start_index (page_number page_size : Z) : Z :=
  page_number * page_size.

Definition end_index (page_number page_size : Z) (len : nat) : Z :=
  Z.min ((page_number + 1) * page_size) (Z.of_nat len).

Definition current_page (filtered_files : list FileMeta)
    (page_number page_size : Z) : list FileMeta :=
  slice filtered_files
    (start_index page_number page_size)
    (end_index page_number page_size (length filtered_files)).

(** [(len + page_size - 1) // page_size] *)
Definition total_pages (len : nat) (page_size : Z) : Z :=
  (Z.of_nat len + page_size - 1) / page_size.

(** ** Loading and showing figures *)

Definition display_metadata (chart_metadata : FileMeta) : M unit :=
  show (MetadataLine chart_metadata).

Section Files.

(** The file system: what [open(p).read()] and [p.stat()] give. *)
Variable read_text : string -> result string.

Record stat_result : Type := mkStat { st_mtime : Z; st_size : Z }.

Variable stat : Path -> result stat_result.

(** [datetime.fromtimestamp(t).strftime("%Y-%m-%d %H:%M:%S")] *)
Variable format_mtime : Z -> string.

(** [directory.exists() and directory.is_dir()], [directory.glob] *)
Variable is_dir : Path -> bool.
Variable glob_json : Path -> result (list Path).

(** [pio.from_json], and the truth value of the figure it returns. *)
Variable figure : Type.
Variable from_json : string -> result figure.
Variable fig_truthy : figure -> bool.

(** The memoisation of [st.cache_data] is left out: every call runs the
    body. *)
Definition load_figure_json (json_file : Path) : M string :=
  try_except
    (show (ReadFile (as_posix json_file)) ;;;
     fig_json <- lift (read_text (as_posix json_file)) ;;
     if negb (str_truthy fig_json)
     then raise (mkExn ValueError
                   ("Empty JSON file: " +:+ Path_name json_file))
     else ret fig_json)
    [ (FileNotFoundError, fun _ =>
         raise (mkExn FileNotFoundError
                  ("Chart file not found at: " +:+ Path_name json_file)));
      (JSONDecodeError, fun _ =>
         raise (mkExn JSONDecodeError
                  ("Could not decode chart at " +:+ Path_name json_file
                   +:+ ". Please check if the file is valid JSON"
                   +:+ ": line 1 column 1 (char 0)")));
      (Exception, fun e =>
         raise (mkExn Exception
                  ("An unexpected error occurred loading chart "
                   +:+ Path_name json_file +:+ ": " +:+ str_of_exn e))) ].

(** The same body; the read is handed to a worker and awaited. *)
Definition load_figure_json_async (json_file : Path) : M string :=
  try_except
    (show (ReadFile (as_posix json_file)) ;;;
     fig_json <- lift (read_text (as_posix json_file)) ;;
     if negb (str_truthy fig_json)
     then raise (mkExn ValueError
                   ("Empty JSON file: " +:+ Path_name json_file))
     else ret fig_json)
    [ (FileNotFoundError, fun _ =>
         raise (mkExn FileNotFoundError
                  ("Chart file not found at: " +:+ Path_name json_file)));
      (JSONDecodeError, fun _ =>
         raise (mkExn JSONDecodeError
                  ("Could not decode chart at " +:+ Path_name json_file
                   +:+ ". Please check if the file is valid JSON"
                   +:+ ": line 1 column 1 (char 0)")));
      (Exception, fun e =>
         raise (mkExn Exception
                  ("An unexpected error occurred loading chart "
                   +:+ Path_name json_file +:+ ": " +:+ str_of_exn e))) ].

Definition get_file_metadata (file_path : Path) : M FileMeta :=
  try_except
    (st <- lift (stat file_path) ;;
     ret (Path_name file_path,
          format_mtime (st_mtime st),
          st_size st,
          Path_str file_path))
    [ (FileNotFoundError, fun _ =>
         ret (Path_name file_path, "N/A", 0, Path_str file_path));
      (Exception, fun e =>
         raise (mkExn Exception
                  ("Error getting metadata for " +:+ Path_name file_path
                   +:+ ": " +:+ str_of_exn e))) ].

Definition display_chart (page_prefix : string) (chart_metadata : FileMeta)
    (chart_height : Z) (use_async : bool) : M unit :=
  if negb (str_truthy (item3 chart_metadata))
  then handle_error page_prefix
         "Invalid chart metadata provided or file path missing" "error"
  else
    let chart_path := Path_of (item3 chart_metadata) in
    try_except
      (fig_json <- (if use_async then load_figure_json_async chart_path
                    else load_figure_json chart_path) ;;
       fig <- lift (from_json fig_json) ;;
       if fig_truthy fig
       then show (PlotlyChart (item0 chart_metadata) fig_json chart_height)
       else ret tt)
      [ (Exception, fun e =>
           handle_error page_prefix
             ("Error displaying chart " +:+ item0 chart_metadata +:+ ": "
              +:+ str_of_exn e)
             "error") ].

Definition get_all_json_files (directory : Path) : M (list Path) :=
  if negb (is_dir directory)
  then
    handle_error (get_page_prefix directory)
      ("Directory not found at: " +:+ Path_str directory) "error" ;;;
    ret []
  else
    try_except
      (lift (glob_json directory))
      [ (Exception, fun e =>
           handle_error (get_page_prefix directory)
             ("Error getting JSON files: " +:+ str_of_exn e) "error" ;;;
           ret []) ].

(** *** Batch display *)

(** What the rest of the session does to the world while the chart at
    position [i] of the page is awaited. *)
Variable during_await : nat -> World -> World.

Definition await_point (i : nat) : M unit :=
  fun w => (Ok tt, during_await i w).

Fixpoint display_loop (page_prefix : string) (chart_height : Z)
    (use_async : bool) (i : nat) (files : list FileMeta) : M unit :=
  match files with
  | [] => ret tt
  | chart_metadata :: rest =>
      flag <- state_get (page_prefix +:+ "loading_all_charts") ;;
      if truthy flag then
        display_metadata chart_metadata ;;;
        display_chart page_prefix chart_metadata chart_height use_async ;;;
        await_point i ;;;
        display_loop page_prefix chart_height use_async (S i) rest
      else ret tt
  end.

Definition display_all_charts (page_prefix : string)
    (filtered_files : list FileMeta) (chart_height : Z) (use_async : bool)
  : M unit :=
  try_finally
    (try_except
       (if negb (list_truthy filtered_files)
        then handle_error page_prefix "No charts to display" "info"
        else
          pn <- state_get (page_prefix +:+ "page_number") ;;
          pn <- as_int pn ;;
          ps <- state_get (page_prefix +:+ "page_size") ;;
          ps <- as_int ps ;;
          let current_page_files := current_page filtered_files pn ps in
          if negb (list_truthy current_page_files)
          then handle_error page_prefix "No charts on this page" "info"
          else display_loop page_prefix chart_height use_async 0%nat
                 current_page_files)
       [ (Exception, fun e =>
            handle_error page_prefix
              ("An unexpected error occurred while displaying charts: "
               +:+ str_of_exn e)
              "error") ])
    (update_session_state page_prefix "loading_all_charts" (VBool false)).

(** *** Widgets

    What the user has entered in the sidebar and which button, if any,
    started this run. *)
Inductive click : Type := NoClick | Previous | Next | CancelLoading.

Record Widgets : Type := mkWidgets {
  w_search_query : string;
  w_selected_types : list string;
  w_sort_by : string;
  w_chart_height : Z;
  w_page_size : Z;
  w_use_async : bool;
  w_selected_chart : string;
  w_click : click
}.

Definition is_click (c d : click) : bool :=
  match c, d with
  | Previous, Previous | Next, Next | CancelLoading, CancelLoading => true
  | _, _ => false
  end.

(** The two buttons and the page counter. [a or b] reads [b] only when
    [a] is false. Typing a page number into the input next to the counter
    is left out. *)
Definition display_pagination_controls (ui : Widgets) (page_prefix : string)
    (filtered_files : list FileMeta) (page_size : Z) : M unit :=
  pn <- state_get (page_prefix +:+ "page_number") ;;
  pn <- as_int pn ;;
  let end_index := end_index pn page_size (length filtered_files) in
  let total_pages := total_pages (length filtered_files) page_size in
  prev_disabled <-
    (if pn <=? 0 then ret true
     else loading <- state_get (page_prefix +:+ "loading") ;;
          ret (truthy loading)) ;;
  (if is_click (w_click ui) Previous && negb prev_disabled
   then update_session_state page_prefix "page_number" (VInt (pn - 1))
   else ret tt) ;;;
  pn' <- state_get (page_prefix +:+ "page_number") ;;
  pn' <- as_int pn' ;;
  show (PaginationControls (pn' + 1) total_pages) ;;;
  next_disabled <-
    (if Z.of_nat (length filtered_files) <=? end_index then ret true
     else loading <- state_get (page_prefix +:+ "loading") ;;
          ret (truthy loading)) ;;
  if is_click (w_click ui) Next && negb next_disabled
  then update_session_state page_prefix "page_number" (VInt (pn' + 1))
  else ret tt.

(** The values the sidebar returns; the page size is [max(1, choice)]. *)
Definition display_filters (ui : Widgets) (page_prefix : string)
  : M (string * list string * string * Z * Z * bool) :=
  ret (w_search_query ui, w_selected_types ui, w_sort_by ui,
       w_chart_height ui, Z.max 1 (w_page_size ui), w_use_async ui).

(** [next((f for f in files if f[0] == name), None)] *)
Definition find_chart (name : string) (files : list FileMeta)
  : option FileMeta :=
  List.find (fun f => String.eqb (item0 f) name) files.

(** *** The catalogue scan at the head of [main] *)

(** [true] once the catalogue is in the session state, [false] when
    [main] returns because the directory gave no files. *)
Definition load_all_files (page_prefix : string) (chart_dir : Path)
  : M bool :=
  all_files <- state_get (page_prefix +:+ "all_files") ;;
  if negb (truthy all_files) then
    all_files_paths <- get_all_json_files chart_dir ;;
    if negb (list_truthy all_files_paths) then ret false
    else
      all_files_metadata <- comprehension get_file_metadata all_files_paths ;;
      update_session_state page_prefix "all_files"
        (VFiles all_files_metadata) ;;;
      ret true
  else ret true.

(** *** The part of [main] after the filtered list is known non-empty *)

Definition show_page (ui : Widgets) (page_prefix : string)
    (filtered_files : list FileMeta) (chart_height page_size : Z)
    (use_async : bool) : M unit :=
  pn <- state_get (page_prefix +:+ "page_number") ;;
  pn <- as_int pn ;;
  let current_page_files := current_page filtered_files pn page_size in
  (if negb (list_truthy current_page_files) then
     handle_error page_prefix "No charts match the selected filters." "info" ;;;
     update_session_state page_prefix "loading_all_charts" (VBool false) ;;;
     show (SelectChart [] true)
   else
     let chart_names := map item0 current_page_files in
     show (SelectChart ("Show All Charts" :: chart_names) false) ;;;
     let selected_chart := w_selected_chart ui in
     if String.eqb selected_chart "Show All Charts" then
       flag <- state_get (page_prefix +:+ "loading_all_charts") ;;
       (if negb (truthy flag) then
          update_session_state page_prefix "loading_all_charts" (VBool true) ;;;
          display_all_charts page_prefix filtered_files chart_height use_async
        else ret tt) ;;;
       flag' <- state_get (page_prefix +:+ "loading_all_charts") ;;
       show (CancelButton (negb (truthy flag'))) ;;;
       if is_click (w_click ui) CancelLoading && truthy flag'
       then update_session_state page_prefix "loading_all_charts" (VBool false)
       else ret tt
     else if str_truthy selected_chart then
       match find_chart selected_chart current_page_files with
       | Some chart_file =>
           display_metadata chart_file ;;;
           display_chart page_prefix chart_file chart_height use_async
       | None => ret tt
       end
     else
       handle_error page_prefix "Please select a chart." "info" ;;;
       update_session_state page_prefix "loading_all_charts" (VBool false)) ;;;
  if list_truthy filtered_files
  then display_pagination_controls ui page_prefix filtered_files page_size
  else ret tt.

(** One run of the script for a dashboard. The set of file types only
    feeds the options of the type filter, and the style sheets change no
    state: both are left out. *)
Definition main (ui : Widgets) (chart_dir : Path) : M unit :=
  let page_prefix := get_page_prefix chart_dir in
  init_session_state page_prefix ;;;
  try_except
    (show (Title ("Interactive - " +:+ Path_name chart_dir)) ;;;
     loaded <- load_all_files page_prefix chart_dir ;;
     if negb loaded then ret tt
     else
       all_files <- state_get (page_prefix +:+ "all_files") ;;
       if negb (truthy all_files) then
         handle_error page_prefix
           "No chart files found in the selected directory." "warning" ;;;
         show Instructions
       else
         all_files <- as_files all_files ;;
         choices <- display_filters ui page_prefix ;;
         let '(search_query, selected_types, sort_by, chart_height,
               page_size, use_async) := choices in
         update_session_state page_prefix "search_query" (VStr search_query) ;;;
         update_session_state page_prefix "selected_types"
           (VStrs selected_types) ;;;
         update_session_state page_prefix "sort_by" (VStr sort_by) ;;;
         update_session_state page_prefix "page_size" (VInt page_size) ;;;
         update_session_state page_prefix "use_async" (VBool use_async) ;;;
         filtered_files <-
           sort_files (filter_charts all_files search_query selected_types)
             sort_by ;;
         update_session_state page_prefix "filtered_files"
           (VFiles filtered_files) ;;;
         filtered_files <- state_get (page_prefix +:+ "filtered_files") ;;
         filtered_files <- as_files filtered_files ;;
         if negb (list_truthy filtered_files) then
           handle_error page_prefix
             "No charts match the current filter criteria." "info"
         else
           show_page ui page_prefix filtered_files chart_height page_size
             use_async)
    [ (Exception, fun e =>
         handle_error page_prefix
           ("An unexpected error occurred: " +:+ str_of_exn e) "error") ].

End Files.

(** ** The dashboards of the program

    The entry point offers one dashboard per directory found directly
    under [assets]: [parent_directory.iterdir()] yields
    [parent_directory / name] for every entry name, and an entry name is
    not empty and holds no slash. *)

Definition parent_directory : Path := Path_of "assets".


Definition chart_directory (name : string) : Path :=
  joinpath parent_directory name.

(** The fields of the view state, as [init_session_state] names them. *)
Definition view_state_fields : list string := map fst SESSION_STATE_VARS.

(** ** Vocabulary of the specification *)

(** [t] occurs in [s]. *)
Definition contains (s t : string) : Prop :=
  exists pre post, s = pre +:+ t +:+ post.



(** The test of the comprehension in [filter_charts]. *)
Definition keep_test (search : string) (types : list string) (f : FileMeta)
  : bool :=
  str_in (lower search) (lower (item0 f))
  && (negb (list_truthy types)
      || any (fun t => str_in t (item0 f)) types).

(** The file's type: the text before the first underscore of its name. *)
Fixpoint before_underscore (s : string) : string :=
  match s with
  | "" => ""
  | String c s' => if Ascii.eqb c "_" then "" else String c (before_underscore s')
  end.

Definition file_type (f : FileMeta) : string := before_underscore (item0 f).









(** The computation [m] leaves the key [k] of the session state as it
    found it. *)
Definition preserves {A} (k : string) (m : M A) : Prop :=
  forall w, session_state (snd (m w)) !! k = session_state w !! k.

(** The key of the cancellation flag. *)
Definition flag_key (page_prefix : string) : string :=
  page_prefix +:+ "loading_all_charts".


(** The metadata [get_file_metadata] gives for such a path. *)
Definition metadata_of (stat : Path -> result stat_result)
    (format_mtime : Z -> string) (p : Path) : FileMeta :=
  match stat p with
  | Ok st => (Path_name p, format_mtime (st_mtime st), st_size st, Path_str p)
  | Raise _ => (Path_name p, "N/A", 0, Path_str p)
  end.

(** The page with index [i], by positions: the items at
    [i * p], ..., [min ((i + 1) * p, n) - 1]. *)
Definition page_positions (i p n : nat) : list nat :=
  seq (i * p) (Nat.min ((i + 1) * p) n - i * p).

(** The orders the three sort keys are specified to produce. *)
Definition name_ascending (x y : FileMeta) : Prop :=
  String.le (lower (item0 x)) (lower (item0 y)).



(** The defaults of the view state under a prefix, as a map. *)
Definition default_state (page_prefix : string) : gmap string value :=
  list_to_map (map (fun kv => (page_prefix +:+ kv.1, kv.2)) SESSION_STATE_VARS).

(** Two files have the same sort key; one comes no later than the other
    in the key's ascending order. *)
Definition key_eqb (k : keyfn) (x y : FileMeta) : bool :=
  match k with
  | StrKey f => String.eqb (f x) (f y)
  | IntKey f => f x =? f y
  end.

Definition key_le (k : keyfn) (x y : FileMeta) : Prop :=
  match k with
  | StrKey f => String.le (f x) (f y)
  | IntKey f => f x <= f y
  end.

(** [set(f[0].split('_')[0] for f in all_files)]: the options of the type
    filter. *)
Definition file_types (all_files : list FileMeta) : gset string :=
  list_to_set (map file_type all_files).

(** The same widgets with another button pressed. *)
Definition with_click (ui : Widgets) (c : click) : Widgets :=
  mkWidgets (w_search_query ui) (w_selected_types ui) (w_sort_by ui)
    (w_chart_height ui) (w_page_size ui) (w_use_async ui)
    (w_selected_chart ui) c.

(** What [sort_files] returns for a list, and the session state once
    [main] has stored the sidebar's choices and the list they select. *)
Definition sorted_files (files : list FileMeta) (sort_by : string)
  : list FileMeta :=
  sorted_by (key_lt (SORT_KEYS !! sort_by)) (negb (String.eqb sort_by "Name"))
    files.

Definition stored_view (page_prefix : string) (ui : Widgets)
    (all_files : list FileMeta) (m : gmap string value) : gmap string value :=
  <[page_prefix +:+ "filtered_files" :=
      VFiles (sorted_files
                (filter_charts all_files (w_search_query ui)
                   (w_selected_types ui))
                (w_sort_by ui))]>
    (<[page_prefix +:+ "use_async" := VBool (w_use_async ui)]>
       (<[page_prefix +:+ "page_size" := VInt (Z.max 1 (w_page_size ui))]>
          (<[page_prefix +:+ "sort_by" := VStr (w_sort_by ui)]>
             (<[page_prefix +:+ "selected_types" := VStrs (w_selected_types ui)]>
                (<[page_prefix +:+ "search_query" := VStr (w_search_query ui)]>
                   m))))).

(** ** A dashboard to run the program on

    The directory [assets/sales] with twelve chart files, a file system
    that serves them, and a user who browses them. *)

Module Scenario.

Definition dir : Path := chart_directory "sales".

Definition names : list string :=
  [ "revenue_q1.json"; "revenue_q2.json"; "revenue_q3.json";
    "users_q1.json"; "users_q2.json"; "users_q3.json"; "users_q4.json";
    "costs_q1.json"; "costs_q2.json"; "costs_q3.json"; "costs_q4.json";
    "margin_q1.json" ].

Definition paths : list Path := map (joinpath dir) names.

Definition is_dir (d : Path) : bool := String.eqb (as_posix d) (as_posix dir).

Definition glob_json (d : Path) : result (list Path) :=
  Ok (if is_dir d then paths else []).

Definition stat (p : Path) : result stat_result :=
  Ok (mkStat 1700000000 (Z.of_nat (String.length (as_posix p)))).



Definition format_mtime (t : Z) : string := "2023-11-14 22:13:20".

Definition read_text (p : string) : result string := Ok "{}".




Definition from_json (text : string) : result unit :=
  if String.eqb text "{}" then Ok tt
  else Raise (mkExn JSONDecodeError
                "Expecting property name enclosed in double quotes: line 1 column 2 (char 1)").

Definition fig_truthy (fig : unit) : bool := true.

(** Nothing else happens in the session while a chart is awaited. *)
Definition undisturbed (i : nat) (w : World) : World := w.


Definition fresh : World := mkWorld ∅ [].

Definition browse (search : string) (button : click) : Widgets :=
  mkWidgets search [] "Name" 600 10 false "Show All Charts" button.

(** One run of the script. *)
Definition run (ui : Widgets) (w : World) : World :=
  snd (main read_text stat format_mtime is_dir glob_json
         unit from_json fig_truthy undisturbed ui dir w).


Definition key (field : string) : string := get_page_prefix dir +:+ field.

Definition chart (name : string) : FileMeta :=
  metadata_of stat format_mtime (joinpath dir name).

End Scenario.

(** * Properties *)

(** ** Strings *)

Section StringFacts.

Lemma prefix_iff (t s : string) :
  String.prefix t s = true <-> exists post, s = t +:+ post.
Proof.
  revert s; induction t as [|a t IH]; intros s.
  - split; [intros _; by exists s | intros _; by destruct s].
  - destruct s as [|b s]; simpl.
    + split; [done | intros [post H]; discriminate].
    + destruct (ascii_dec a b) as [->|Hne].
      * rewrite IH. split; intros [post H]; exists post.
        -- by rewrite H.
        -- by injection H.
      * split; [done | intros [post H]; injection H; congruence].
Qed.

Lemma str_in_iff (t s : string) : str_in t s = true <-> contains s t.
Proof.
  induction s as [|c s IH]; cbn [str_in].
  - rewrite orb_false_r, prefix_iff. split.
    + intros [post H]. exists "", post. done.
    + intros (pre & post & H). destruct pre; [|discriminate].
      exists post. done.
  - rewrite orb_true_iff, prefix_iff, IH. split.
    + intros [[post H] | (pre & post & H)].
      * exists "", post. done.
      * exists (String c pre), post. simpl. by rewrite H.
    + intros (pre & post & H). destruct pre as [|c' pre]; simpl in H.
      * left. by exists post.
      * right. injection H as _ H. by exists pre, post.
Qed.

Lemma str_in_empty (s : string) : str_in "" s = true.
Proof. by destruct s. Qed.

Lemma str_in_false_iff (t s : string) :
  str_in t s = false <-> ~ contains s t.
Proof. rewrite <- str_in_iff. by destruct (str_in t s). Qed.



Lemma lower_ascii_idemp (c : ascii) :
  lower_ascii (lower_ascii c) = lower_ascii c.
Proof.
  destruct c as [[] [] [] [] [] [] [] []]; vm_compute; reflexivity.
Qed.

Lemma lower_idemp (s : string) : lower (lower s) = lower s.
Proof.
  induction s as [|c s IH]; simpl; [done|].
  by rewrite lower_ascii_idemp, IH.
Qed.

Lemma str_truthy_lower (s : string) : str_truthy (lower s) = str_truthy s.
Proof. by destruct s. Qed.

Lemma str_truthy_false (s : string) : str_truthy s = false -> s = "".
Proof. by destruct s. Qed.


Lemma any_iff {A} (p : A -> bool) (ts : list A) :
  any p ts = true <-> exists t, In t ts /\ p t = true.
Proof. apply existsb_exists. Qed.

End StringFacts.

(** ** Filtering *)


Lemma filter_charts_unfold (L : list FileMeta) (s : string) (T : list string) :
  filter_charts L s T = List.filter (keep_test s T) L.
Proof.
  unfold filter_charts.
  assert (Hterm : (if str_truthy s then lower s else "") = lower s).
  { by destruct s. }
  rewrite Hterm, str_truthy_lower.
  destruct (negb (str_truthy s) && negb (list_truthy T)) eqn:Hid.
  - apply andb_true_iff in Hid as [Hs HT].
    apply negb_true_iff, str_truthy_false in Hs as ->.
    destruct T; [|discriminate].
    induction L as [|f L IH]; [done|].
    cbn [List.filter]. rewrite <- IH. unfold keep_test.
    change (lower "") with "". by rewrite str_in_empty.
  - done.
Qed.


(** C10. The search text is matched against the lowered file name, so its
    letter case is ignored; a selected type token is matched against the
    file name as it is. A file whose type is [Revenue] is dropped by the
    type filter [revenue], which differs from its type in letter case only,
    while the search text [REVENUE] keeps it. *)
Theorem filter_charts_type_tokens_case_sensitive :
  (forall (L : list FileMeta) (s : string) (f : FileMeta),
      In f (filter_charts L s []) <->
      In f L /\ contains (lower (item0 f)) (lower s))
  /\ (forall (L : list FileMeta) (t : string) (T : list string) (f : FileMeta),
      In f (filter_charts L "" (t :: T)) <->
      In f L /\ exists u, In u (t :: T) /\ contains (item0 f) u)
  /\ (let f : FileMeta :=
        ("Revenue_q1.json", "2024-03-01 09:30:00", 2048,
         "assets/sales/Revenue_q1.json") in
      file_type f = "Revenue"
      /\ lower "revenue" = lower (file_type f)
      /\ filter_charts [f] "" ["revenue"] = []
      /\ filter_charts [f] "REVENUE" [] = [f]).
Proof.
  split; [|split].
  - intros L s f. rewrite filter_charts_unfold, filter_In.
    unfold keep_test. simpl. by rewrite andb_true_r, str_in_iff.
  - intros L t T f. rewrite filter_charts_unfold, filter_In.
    unfold keep_test.
    change (lower "") with "". rewrite str_in_empty, andb_true_l.
    change (negb (list_truthy (t :: T))) with false. rewrite orb_false_l.
    rewrite any_iff. apply and_iff_compat_l.
    split; intros (u & Hu & H); exists u; split; try done;
      by apply str_in_iff.
  - vm_compute. done.
Qed.

(** ** Sorting *)

Section SortedFacts.
Context {A : Type} (lt : A -> A -> bool) (R : relation A).
Hypothesis lt_R : forall x y, lt y x = false <-> R x y.
Context `{!Total R, !Transitive R}.




Lemma insert_sorted_hd (a x : A) (l : list A) :
  R a x -> HdRel R a l -> HdRel R a (insert_sorted lt x l).
Proof.
  intros Hax Hl. destruct l as [|y l]; simpl; [by constructor|].
  destruct (lt y x); constructor; [|done].
  by inversion Hl.
Qed.

Lemma insert_sorted_sorted (x : A) (l : list A) :
  Sorted R l -> Sorted R (insert_sorted lt x l).
Proof.
  induction 1 as [|y l Hl IH Hhd]; simpl.
  - by repeat constructor.
  - destruct (lt y x) eqn:Hyx.
    + constructor; [done|]. apply insert_sorted_hd; [|done].
      destruct (total R y x) as [|Hxy]; [done|].
      apply lt_R in Hxy. congruence.
    + constructor; [by constructor|]. constructor. by apply lt_R.
Qed.

Lemma stable_sort_sorted (l : list A) : Sorted R (stable_sort lt l).
Proof.
  induction l as [|x l IH]; simpl; [constructor|].
  by apply insert_sorted_sorted.
Qed.


End SortedFacts.

Lemma string_ltb_le (x y : string) :
  String.ltb y x = false <-> String.le x y.
Proof.
  unfold String.le, String.ltb, String.leb.
  rewrite (String.compare_antisym x y).
  destruct (String.compare y x); simpl; split; done.
Qed.

Lemma Z_ltb_le (x y : Z) : (y <? x) = false <-> x <= y.
Proof. rewrite Z.ltb_ge. done. Qed.

Lemma sort_files_known (files : list FileMeta) (sort_by : string)
    (k : keyfn) (w : World) :
  SORT_KEYS !! sort_by = Some k ->
  sort_files files sort_by w =
    (Ok (sorted_by (key_lt (Some k)) (negb (String.eqb sort_by "Name")) files),
     w).
Proof. intros H. unfold sort_files, try_except, sorted, ret. by rewrite H. Qed.

Local Instance name_ascending_total : Total name_ascending.
Proof. intros x y. apply (total String.le). Qed.

Local Instance name_ascending_trans : Transitive name_ascending.
Proof. intros x y z. unfold name_ascending. apply transitivity. Qed.

Local Instance modified_ascending_total :
  Total (fun x y : FileMeta => String.le (item1 x) (item1 y)).
Proof. intros x y. apply (total String.le). Qed.

Local Instance modified_ascending_trans :
  Transitive (fun x y : FileMeta => String.le (item1 x) (item1 y)).
Proof. intros x y z. apply transitivity. Qed.

Local Instance size_ascending_total :
  Total (fun x y : FileMeta => item2 x <= item2 y).
Proof. intros x y. lia. Qed.

Local Instance size_ascending_trans :
  Transitive (fun x y : FileMeta => item2 x <= item2 y).
Proof. intros x y z. lia. Qed.


(** C1, as the code has it. The lookup of the sort key is [dict.get], which
    gives [None] for a key that is not in [SORT_KEYS] and raises nothing;
    [sorted] then compares the tuples themselves, in descending order. For
    the key [Bogus] and two files given in ascending order the result is
    the reversed list, and no call of [sort_files] ever reports anything:
    the clause holding the warning is never entered. *)
Theorem sort_files_bogus_key_reorders_silently :
  let a : FileMeta := ("a.json", "2024-01-01 00:00:00", 1, "assets/d/a.json") in
  let b : FileMeta := ("b.json", "2024-01-01 00:00:00", 2, "assets/d/b.json") in
  SORT_KEYS !! "Bogus" = None
  /\ (forall w, sort_files [a; b] "Bogus" w = (Ok [b; a], w))
  /\ (forall files sort_by w, exists r, sort_files files sort_by w = (Ok r, w)).
Proof.
  split; [reflexivity|]. split.
  - intros w. reflexivity.
  - intros files sort_by w. unfold sort_files, try_except, sorted, ret.
    by eexists.
Qed.

(** ** Pagination *)

Section Paging.
Context {A : Type}.

Lemma chunks_concat (q t : nat) (l : list A) :
  (length l <= t * q)%nat ->
  concat (map (fun i => take q (drop (i * q) l)) (seq 0 t)) = l.
Proof.
  revert l; induction t as [|t IH]; intros l Hlen.
  - destruct l; [done | simpl in Hlen; lia].
  - cbn [seq map concat]. rewrite <- seq_shift, map_map.
    change (drop (0 * q)%nat l) with l.
    transitivity (take q l ++ drop q l)%list; [|apply take_drop].
    f_equal.
    rewrite <- (IH (drop q l)) by (rewrite length_drop; lia).
    f_equal. apply map_ext. intros i.
    by rewrite drop_drop.
Qed.

Lemma take_min_length (k : nat) (l : list A) :
  take (Nat.min k (length l)) l = take k l.
Proof.
  destruct (Nat.le_gt_cases k (length l)) as [Hle|Hgt].
  - by rewrite Nat.min_l.
  - rewrite Nat.min_r by lia. rewrite !take_ge; [done | lia | lia].
Qed.

Lemma chunk_positions (a m : nat) (l : list A) :
  (a + m <= length l)%nat ->
  Forall2 (fun k x => l !! k = Some x) (seq a m) (take m (drop a l)).
Proof.
  intros Hle. apply Forall2_same_length_lookup. split.
  - rewrite length_seq, length_take, length_drop. lia.
  - intros i k x Hk Hx.
    apply lookup_seq in Hk as [-> Hi].
    rewrite lookup_take_lt, lookup_drop in Hx by done. done.
Qed.
End Paging.

Lemma current_page_take_drop (l : list FileMeta) (i : nat) (p : Z) :
  0 < p ->
  current_page l (Z.of_nat i) p =
    take (Nat.min ((i + 1) * Z.to_nat p) (length l) - i * Z.to_nat p)
         (drop (i * Z.to_nat p) l).
Proof.
  intros Hp. unfold current_page, slice, slice_bound, start_index, end_index.
  set (n := length l). set (q := Z.to_nat p).
  assert (Hq : p = Z.of_nat q) by (subst q; lia).
  destruct (Z.ltb_spec (Z.of_nat i * p) 0) as [Hneg|_]; [nia|].
  destruct (Z.ltb_spec (Z.min ((Z.of_nat i + 1) * p) (Z.of_nat n)) 0)
    as [Hneg|_]; [nia|].
  destruct (Nat.le_gt_cases n (i * q)) as [Hbig|Hsmall].
  - rewrite !drop_ge; [by rewrite !take_nil | lia | nia].
  - replace (Z.to_nat (Z.min (Z.of_nat n) (Z.max 0 (Z.of_nat i * p))))
      with (i * q)%nat by nia.
    f_equal. nia.
Qed.

Lemma total_pages_covers (n : nat) (p : Z) :
  0 < p -> (n <= Z.to_nat (total_pages n p) * Z.to_nat p)%nat.
Proof.
  intros Hp. unfold total_pages.
  pose proof (Z.div_mod (Z.of_nat n + p - 1) p ltac:(lia)) as Hdm.
  pose proof (Z.mod_pos_bound (Z.of_nat n + p - 1) p Hp) as Hmod.
  assert (0 <= (Z.of_nat n + p - 1) / p) by (apply Z.div_pos; lia).
  nia.
Qed.

(** C4. For a page size [p > 0] and a list of [n] items, the page with
    index [i] holds the items at the positions [i * p] up to, and not
    including, [min ((i + 1) * p, n)], in order; [total_pages] is the
    ceiling of [n / p]; and the pages with index below [total_pages],
    joined in order, are the list itself. *)
Theorem pages_partition_list :
  forall (l : list FileMeta) (p : Z),
    0 < p ->
    let n := length l in
    (forall i : nat,
        Forall2 (fun k x => l !! k = Some x)
          (page_positions i (Z.to_nat p) n)
          (current_page l (Z.of_nat i) p))
    /\ (total_pages n p - 1) * p < Z.of_nat n <= total_pages n p * p
    /\ concat (map (fun i => current_page l (Z.of_nat i) p)
                 (seq 0 (Z.to_nat (total_pages n p)))) = l.
Proof.
  intros l p Hp n. split; [|split].
  - intros i. rewrite current_page_take_drop by done.
    unfold page_positions. fold n.
    destruct (Nat.le_gt_cases n (i * Z.to_nat p)) as [Hbig|Hsmall].
    + replace (Nat.min ((i + 1) * Z.to_nat p) n - i * Z.to_nat p)%nat
        with 0%nat by lia.
      simpl. constructor.
    + apply chunk_positions. fold n. lia.
  - unfold total_pages.
    pose proof (Z.div_mod (Z.of_nat n + p - 1) p ltac:(lia)) as Hdm.
    pose proof (Z.mod_pos_bound (Z.of_nat n + p - 1) p Hp) as Hmod.
    nia.
  - erewrite map_ext.
    + apply (chunks_concat (Z.to_nat p)). by apply total_pages_covers.
    + intros i. cbv beta. rewrite current_page_take_drop by done.
      fold n. destruct (Nat.le_gt_cases n (i * Z.to_nat p)) as [Hbig|Hsmall].
      * rewrite !drop_ge by (fold n; lia). by rewrite !take_nil.
      * replace (Nat.min ((i + 1) * Z.to_nat p) n - i * Z.to_nat p)%nat
          with (Nat.min (Z.to_nat p) (length (drop (i * Z.to_nat p) l)))
          by (rewrite length_drop; fold n; lia).
        apply take_min_length.
Qed.

(** ** Namespaces *)

Section NamespaceFacts.

Lemma string_app_cons (h : ascii) (a b : string) :
  String h a +:+ b = String h (a +:+ b).
Proof. reflexivity. Qed.

Lemma string_app_nil_l (b : string) : "" +:+ b = b.
Proof. reflexivity. Qed.











End NamespaceFacts.

(** ** What a run writes

    [preserves k m]: the computation [m] leaves the key [k] of the session
    state as it found it. The rules follow the shape of the program. *)

Section FrameRules.
Context {A B : Type} (k : string).

Lemma preserves_ret (a : A) : preserves k (ret a).
Proof. by intros w. Qed.

Lemma preserves_raise (e : exn) : preserves k (@raise A e).
Proof. by intros w. Qed.

Lemma preserves_lift (r : result A) : preserves k (lift r).
Proof. by intros w. Qed.

Lemma preserves_show (ev : event) : preserves k (show ev).
Proof. by intros w. Qed.

Lemma preserves_state_get (key : string) : preserves k (state_get key).
Proof. intros w. unfold state_get. by destruct (session_state w !! key). Qed.

Lemma preserves_state_set (key : string) (v : value) :
  key <> k -> preserves k (state_set key v).
Proof. intros Hne w. cbn. by apply lookup_insert_ne. Qed.

Lemma preserves_bind (m : M A) (f : A -> M B) :
  preserves k m -> (forall a, preserves k (f a)) -> preserves k (bind m f).
Proof.
  intros Hm Hf w. unfold bind. specialize (Hm w).
  destruct (m w) as [[a|e] w']; cbn [snd] in *; [|done].
  by rewrite Hf.
Qed.

Lemma preserves_select (e : exn) (clauses : list (exn_class * (exn -> M A))) :
  Forall (fun ch => forall e', preserves k (ch.2 e')) clauses ->
  preserves k (select_clause e clauses).
Proof.
  induction 1 as [|[c h] clauses Hh _ IH]; cbn [select_clause].
  - apply preserves_raise.
  - destruct (isinstance e c); [apply Hh | apply IH].
Qed.

Lemma preserves_try_except (m : M A)
    (clauses : list (exn_class * (exn -> M A))) :
  preserves k m ->
  Forall (fun ch => forall e', preserves k (ch.2 e')) clauses ->
  preserves k (try_except m clauses).
Proof.
  intros Hm Hc w. unfold try_except. specialize (Hm w).
  destruct (m w) as [[a|e] w']; cbn [snd] in *; [done|].
  by rewrite preserves_select.
Qed.

Lemma preserves_try_finally (m : M A) (f : M unit) :
  preserves k m -> preserves k f -> preserves k (try_finally m f).
Proof.
  intros Hm Hf w. unfold try_finally. specialize (Hm w).
  destruct (m w) as [r w']. specialize (Hf w'). cbn [snd] in *.
  destruct (f w') as [[[]|e] w'']; cbn [snd] in *; congruence.
Qed.

End FrameRules.

Lemma preserves_comprehension {A B} (k : string) (f : A -> M B) (xs : list A) :
  (forall x, preserves k (f x)) -> preserves k (comprehension f xs).
Proof.
  intros Hf. induction xs as [|x xs IH]; cbn [comprehension].
  - apply preserves_ret.
  - apply preserves_bind; [done|]. intros y.
    apply preserves_bind; [done|]. intros ys. apply preserves_ret.
Qed.

Lemma preserves_as_int (k : string) (v : value) : preserves k (as_int v).
Proof. destruct v; by intros w. Qed.

Lemma preserves_as_files (k : string) (v : value) : preserves k (as_files v).
Proof. destruct v; by intros w. Qed.


Ltac frame_clauses :=
  lazymatch goal with
  | |- Forall _ [] => constructor
  | |- Forall _ (_ :: _) =>
      constructor; [intros ?; cbn [snd] | frame_clauses]
  end.

Ltac frame_step :=
  lazymatch goal with
  | |- preserves _ (bind _ _) => apply preserves_bind; [|intros ?]
  | |- preserves _ (ret _) => apply preserves_ret
  | |- preserves _ (raise _) => apply preserves_raise
  | |- preserves _ (lift _) => apply preserves_lift
  | |- preserves _ (show _) => apply preserves_show
  | |- preserves _ (state_get _) => apply preserves_state_get
  | |- preserves _ (as_int _) => apply preserves_as_int
  | |- preserves _ (as_files _) => apply preserves_as_files
  | |- preserves _ (try_except _ _) =>
      apply preserves_try_except; [|frame_clauses]
  | |- preserves _ (try_finally _ _) => apply preserves_try_finally
  | |- preserves _ (comprehension _ _) =>
      apply preserves_comprehension; intros ?
  | |- preserves _ (if ?b then _ else _) => destruct b
  | |- preserves _ (match ?x with _ => _ end) => destruct x
  | |- preserves _ (let _ := _ in _) => cbv zeta
  end.

Section Frame.
Variable read_text : string -> result string.
Variable stat : Path -> result stat_result.
Variable format_mtime : Z -> string.
Variable is_dir : Path -> bool.
Variable glob_json : Path -> result (list Path).
Variable figure : Type.
Variable from_json : string -> result figure.
Variable fig_truthy : figure -> bool.
Variable during_await : nat -> World -> World.
Variable chart_dir : Path.
Variable k : string.

Hypothesis own_keys :
  forall f, In f view_state_fields -> get_page_prefix chart_dir +:+ f <> k.
Hypothesis await_frame :
  forall i w, session_state (during_await i w) !! k = session_state w !! k.




Lemma preserves_sort_files (files : list FileMeta) (sort_by : string) :
  preserves k (sort_files files sort_by).
Proof.
  by intros w.
Qed.












End Frame.



(** ** Loading and showing one chart *)

Section DisplayFacts.
Variable read_text : string -> result string.
Variable figure : Type.
Variable from_json : string -> result figure.
Variable fig_truthy : figure -> bool.



Lemma handle_error_error (page_prefix msg : string) (w : World) :
  handle_error page_prefix msg "error" w
  = (Ok tt,
     mkWorld (<[page_prefix +:+ "error" := VStr msg]> (session_state w))
       (log w ++ [ErrorBox msg])).
Proof. reflexivity. Qed.

Lemma isinstance_Exception (e : exn) : isinstance e Exception = true.
Proof. by destruct e as [[] ?]. Qed.




End DisplayFacts.

(** ** Batch display *)

Section BatchFacts.
Variable read_text : string -> result string.
Variable figure : Type.
Variable from_json : string -> result figure.
Variable fig_truthy : figure -> bool.
Variable during_await : nat -> World -> World.
Variable page_prefix : string.
Variable chart_height : Z.
Variable use_async : bool.




(** The cancellation arrives while the chart at position [c] is
    awaited: until then the rest of the session leaves the flag alone,
    and it never touches what is on the screen. *)
Variable c : nat.
Hypothesis await_keeps_log : forall j w, log (during_await j w) = log w.
Hypothesis await_keeps_flag :
  forall j w, (j < c)%nat ->
    session_state (during_await j w) !! flag_key page_prefix
    = session_state w !! flag_key page_prefix.
Hypothesis await_cancels :
  forall w,
    session_state (during_await c w) !! flag_key page_prefix
    = Some (VBool false).


End BatchFacts.


(** ** The catalogue scan *)

Section ScanFacts.
Variable stat : Path -> result stat_result.
Variable format_mtime : Z -> string.
Variable is_dir : Path -> bool.
Variable glob_json : Path -> result (list Path).






End ScanFacts.

(** ** The page index across renders *)

Ltac key_ne :=
  let H := fresh in
  intros H; apply String.app_inj in H; discriminate.

Lemma bind_ok {A B} (m : M A) (k : A -> M B) (w w' : World) (a : A) :
  m w = (Ok a, w') -> bind m k w = k a w'.
Proof. intros H. unfold bind. by rewrite H. Qed.





(** ** The theorems at work on the dashboard of [Scenario] *)

Lemma pages_partition_list_witness :
  let l := map Scenario.chart Scenario.names in
  0 < 5
  /\ (total_pages (length l) 5 - 1) * 5 < Z.of_nat (length l)
     <= total_pages (length l) 5 * 5
  /\ concat (map (fun i => current_page l (Z.of_nat i) 5)
               (seq 0 (Z.to_nat (total_pages (length l) 5)))) = l.
Proof.
  intros l. split; [lia|].
  pose proof (pages_partition_list l 5 ltac:(lia)) as H.
  cbv zeta in H. destruct H as (_ & Hceil & Hcat). split; assumption.
Defined.






(** * Further properties of the code *)

(** ** Initialising the view state *)

Lemma union_insert_present (m r : gmap string value) (k : string) (x v : value) :
  m !! k = Some x -> m ∪ <[k := v]> r = m ∪ r.
Proof.
  intros Hk. apply map_eq. intros j. rewrite !lookup_union.
  destruct (decide (k = j)) as [<-|Hne].
  - rewrite Hk. by destruct (<[k:=v]> r !! k), (r !! k).
  - by rewrite lookup_insert_ne.
Qed.

Lemma init_loop_union (page_prefix : string) (vars : list (string * value)) :
  forall w,
    init_loop page_prefix vars w
    = (Ok tt,
       mkWorld
         (session_state w
          ∪ list_to_map (map (fun kv => (page_prefix +:+ kv.1, kv.2)) vars))
         (log w)).
Proof.
  induction vars as [|[key v] vars IH]; intros w.
  - cbn [init_loop map]. unfold ret.
    rewrite list_to_map_nil, (right_id_L ∅ (∪)). by destruct w.
  - cbn [init_loop]. unfold bind.
    destruct (session_state w !! (page_prefix +:+ key)) as [x|] eqn:Hk.
    + rewrite IH. cbn [map fst snd]. rewrite list_to_map_cons.
      by erewrite union_insert_present.
    + unfold state_set. rewrite IH. cbn [map fst snd session_state log].
      rewrite list_to_map_cons.
      by rewrite <- insert_union_r, insert_union_l.
Qed.

Lemma default_state_lookup (page_prefix f : string) (d : value) :
  In (f, d) SESSION_STATE_VARS ->
  default_state page_prefix !! (page_prefix +:+ f) = Some d.
Proof.
  intros Hin. unfold default_state.
  apply elem_of_list_to_map_1.
  - rewrite <- list_fmap_compose.
    apply (NoDup_fmap_2_strong (fun kv : string * value => page_prefix +:+ kv.1)).
    + intros [f1 d1] [f2 d2] H1 H2 Heq. cbn in Heq.
      apply String.app_inj in Heq. subst f2.
      revert H1 H2. rewrite !list_elem_of_In.
      cbn. intros H1 H2.
      repeat (destruct H1 as [H1|H1]; [injection H1 as <- <-|]);
        try done;
        repeat (destruct H2 as [H2|H2]; [try discriminate H2; by injection H2 as <-|]);
        done.
    + apply NoDup_ListNoDup. repeat constructor; cbn; intuition discriminate.
  - apply list_elem_of_In. apply (in_map (fun kv => (page_prefix +:+ kv.1, kv.2)) _ (f, d)). done.
Qed.

(** X1. [init_session_state] fills gaps only: the state afterwards is the
    state before, completed by the defaults. A key that was present keeps
    its value, a missing field gets its default, all twelve fields are
    present afterwards, nothing is shown, and a second initialisation
    changes nothing. *)
Theorem init_session_state_fills_gaps_only :
  forall (page_prefix : string) (w : World),
    let w1 :=
      mkWorld (session_state w ∪ default_state page_prefix) (log w) in
    init_session_state page_prefix w = (Ok tt, w1)
    /\ (forall k v, session_state w !! k = Some v ->
                    session_state w1 !! k = Some v)
    /\ (forall f d, In (f, d) SESSION_STATE_VARS ->
                    session_state w !! (page_prefix +:+ f) = None ->
                    session_state w1 !! (page_prefix +:+ f) = Some d)
    /\ (forall f, In f view_state_fields ->
                  is_Some (session_state w1 !! (page_prefix +:+ f)))
    /\ init_session_state page_prefix w1 = (Ok tt, w1).
Proof.
  intros page_prefix w w1. subst w1.
  split; [apply init_loop_union|]. cbn [session_state].
  split; [|split; [|split]].
  - intros k v Hk. by apply lookup_union_Some_l.
  - intros f d Hin Hnone. rewrite lookup_union_r by done.
    by apply default_state_lookup.
  - intros f Hf. unfold view_state_fields in Hf.
    apply in_map_iff in Hf as ([f' d] & <- & Hin). cbn [fst].
    destruct (session_state w !! (page_prefix +:+ f')) as [v|] eqn:Hk.
    + exists v. by apply lookup_union_Some_l.
    + exists d. rewrite lookup_union_r by done. by apply default_state_lookup.
  - unfold init_session_state. rewrite init_loop_union.
    cbn [session_state log]. fold (default_state page_prefix).
    by rewrite <- (assoc_L (∪)), (idemp_L (∪)).
Qed.

(** ** More on filtering *)

Section FilterFacts.
Context {A : Type}.

Lemma filter_filter_and (p q : A -> bool) (l : list A) :
  List.filter q (List.filter p l) = List.filter (fun x => p x && q x) l.
Proof.
  induction l as [|x l IH]; [done|]. cbn [List.filter].
  destruct (p x); cbn [List.filter andb]; [|done].
  destruct (q x); by rewrite IH.
Qed.

Lemma filter_sublist (p : A -> bool) (l : list A) : sublist (List.filter p l) l.
Proof.
  induction l as [|x l IH]; cbn [List.filter]; [constructor|].
  destruct (p x); by constructor.
Qed.
End FilterFacts.

(** X2. Filtering again with the same search and types changes nothing;
    filtering by the search and then by the types, or the other way
    round, is filtering by both at once; and the result is always a
    sublist of the input, in the input's order. *)
Theorem filter_charts_composes :
  forall (L : list FileMeta) (s : string) (T : list string),
    filter_charts (filter_charts L s T) s T = filter_charts L s T
    /\ filter_charts (filter_charts L s []) "" T = filter_charts L s T
    /\ filter_charts (filter_charts L "" T) s [] = filter_charts L s T
    /\ sublist (filter_charts L s T) L.
Proof.
  intros L s T. rewrite !filter_charts_unfold, !filter_filter_and.
  split; [|split; [|split]].
  - apply filter_ext. intros f. by destruct (keep_test s T f).
  - apply filter_ext. intros f. unfold keep_test.
    change (lower "") with "". rewrite str_in_empty.
    cbn [list_truthy negb orb andb]. by rewrite andb_true_r.
  - apply filter_ext. intros f. unfold keep_test.
    change (lower "") with "". rewrite str_in_empty.
    cbn [list_truthy negb orb andb]. rewrite andb_true_r. apply andb_comm.
  - apply filter_sublist.
Qed.

(** ** More on sorting *)

Section StableFacts.
Context {A : Type} (lt : A -> A -> bool) (P : A -> bool).
Hypothesis class_unordered :
  forall x y, P x = true -> P y = true -> lt x y = false.

Lemma insert_sorted_filter (x : A) (l : list A) :
  List.filter P (insert_sorted lt x l) = List.filter P (x :: l).
Proof.
  induction l as [|y l IH]; [done|]. cbn [insert_sorted].
  destruct (lt y x) eqn:Hyx; [|done].
  cbn [List.filter] in *. rewrite IH.
  destruct (P y) eqn:Py, (P x) eqn:Px; try done.
  rewrite class_unordered in Hyx by done. discriminate.
Qed.

Lemma stable_sort_filter (l : list A) :
  List.filter P (stable_sort lt l) = List.filter P l.
Proof.
  induction l as [|x l IH]; [done|]. cbn [stable_sort foldr].
  fold (stable_sort lt l). rewrite insert_sorted_filter.
  cbn [List.filter]. by rewrite IH.
Qed.

Lemma filter_reverse (l : list A) :
  List.filter P (reverse l) = reverse (List.filter P l).
Proof.
  induction l as [|x l IH]; [done|].
  rewrite reverse_cons, List.filter_app, IH. cbn [List.filter].
  destruct (P x); [by rewrite reverse_cons | by rewrite app_nil_r].
Qed.

Lemma sorted_by_filter (r : bool) (l : list A) :
  List.filter P (sorted_by lt r l) = List.filter P l.
Proof.
  destruct r; cbn [sorted_by]; [|apply stable_sort_filter].
  by rewrite filter_reverse, stable_sort_filter, filter_reverse,
    reverse_involutive.
Qed.
End StableFacts.

Lemma string_ltb_irrefl (s : string) : String.ltb s s = false.
Proof.
  apply string_ltb_le. reflexivity.
Qed.

(** X3. For each of the three sort keys the sort is stable: the files
    that share the sort key of any given file come out in the order they
    had in the input, for the descending keys as for the ascending one. *)
Theorem sort_files_is_stable :
  forall (files : list FileMeta) (sort_by : string) (k : keyfn) (w : World)
         (a : FileMeta),
    SORT_KEYS !! sort_by = Some k ->
    exists r,
      sort_files files sort_by w = (Ok r, w)
      /\ List.filter (key_eqb k a) r = List.filter (key_eqb k a) files.
Proof.
  intros files sort_by k w a Hk.
  rewrite (sort_files_known files sort_by k w Hk).
  eexists. split; [reflexivity|].
  apply sorted_by_filter. intros x y Hx Hy.
  destruct k as [f|f]; cbn [key_eqb key_lt] in *.
  - apply String.eqb_eq in Hx, Hy. rewrite <- Hx, <- Hy.
    apply string_ltb_irrefl.
  - apply Z.eqb_eq in Hx, Hy. apply Z.ltb_ge. lia.
Qed.

Section ResortFacts.
Context {A : Type} (lt : A -> A -> bool) (R : relation A).
Hypothesis lt_R : forall x y, lt y x = false <-> R x y.
Context `{!Total R, !Transitive R}.

Lemma stable_sort_fixed (l : list A) : Sorted R l -> stable_sort lt l = l.
Proof.
  induction 1 as [|x l Hl IH Hhd]; [done|].
  cbn [stable_sort foldr]. fold (stable_sort lt l). rewrite IH.
  destruct Hhd as [|y l' Hxy]; [done|]. cbn [insert_sorted].
  apply lt_R in Hxy. by rewrite Hxy.
Qed.

Lemma sorted_by_idemp (r : bool) (l : list A) :
  sorted_by lt r (sorted_by lt r l) = sorted_by lt r l.
Proof.
  destruct r; cbn [sorted_by].
  - rewrite reverse_involutive.
    by rewrite (stable_sort_fixed (stable_sort lt (reverse l)))
      by (by apply stable_sort_sorted).
  - by apply stable_sort_fixed, stable_sort_sorted.
Qed.
End ResortFacts.

Lemma key_lt_le (k : keyfn) (x y : FileMeta) :
  key_lt (Some k) y x = false <-> key_le k x y.
Proof.
  destruct k as [f|f]; cbn [key_lt key_le];
    [apply string_ltb_le | apply Z_ltb_le].
Qed.

Local Instance key_le_total (k : keyfn) : Total (key_le k).
Proof.
  intros x y. destruct k as [f|f]; cbn [key_le];
    [apply (total String.le) | lia].
Qed.

Local Instance key_le_trans (k : keyfn) : Transitive (key_le k).
Proof.
  intros x y z. destruct k as [f|f]; cbn [key_le];
    [apply transitivity | lia].
Qed.

(** X4. For each of the three sort keys, sorting the sorted list again
    returns it as it is. *)
Theorem sort_files_twice :
  forall (files : list FileMeta) (sort_by : string) (k : keyfn) (w : World),
    SORT_KEYS !! sort_by = Some k ->
    exists r,
      sort_files files sort_by w = (Ok r, w)
      /\ sort_files r sort_by w = (Ok r, w).
Proof.
  intros files sort_by k w Hk.
  rewrite (sort_files_known files sort_by k w Hk).
  eexists. split; [reflexivity|].
  rewrite (sort_files_known _ sort_by k w Hk). do 2 f_equal.
  apply (sorted_by_idemp _ (key_le k)); [apply key_lt_le | apply _ ..].
Qed.

(** ** Page sizes and the pagination buttons *)

Lemma total_pages_bounds (n : nat) (p : Z) :
  0 < p ->
  (total_pages n p - 1) * p < Z.of_nat n <= total_pages n p * p.
Proof.
  intros Hp. unfold total_pages.
  pose proof (Z.div_mod (Z.of_nat n + p - 1) p ltac:(lia)) as Hdm.
  pose proof (Z.mod_pos_bound (Z.of_nat n + p - 1) p Hp) as Hmod.
  nia.
Qed.

(** X5. For a page size [p > 0], the page with index [i] holds
    [min (p, n - i * p)] items: every page before the last one holds
    exactly [p], and a page is non-empty exactly when its index is below
    [total_pages]. *)
Theorem current_page_sizes :
  forall (l : list FileMeta) (p : Z) (i : nat),
    0 < p ->
    length (current_page l (Z.of_nat i) p)
    = Nat.min (Z.to_nat p) (length l - i * Z.to_nat p)
    /\ (Z.of_nat i < total_pages (length l) p - 1 ->
        length (current_page l (Z.of_nat i) p) = Z.to_nat p)
    /\ (current_page l (Z.of_nat i) p <> []
        <-> Z.of_nat i < total_pages (length l) p).
Proof.
  intros l p i Hp.
  pose proof (total_pages_bounds (length l) p Hp) as Hb.
  rewrite current_page_take_drop by done.
  set (q := Z.to_nat p) in *. set (n := length l) in *.
  assert (Hq : p = Z.of_nat q) by (subst q; lia).
  assert (Hlen : length (take (Nat.min ((i + 1) * q) n - i * q) (drop (i * q) l))
                 = Nat.min q (n - i * q)).
  { rewrite length_take, length_drop. fold n. lia. }
  split; [exact Hlen|]. split.
  - intros Hi. rewrite Hlen. nia.
  - rewrite <- length_zero_iff_nil, Hlen. split; intros H; nia.
Qed.


(** ** Type options, the loader and the directory listing *)

Lemma before_underscore_prefix (s : string) :
  exists post, s = before_underscore s +:+ post.
Proof.
  induction s as [|c s [post IH]]; [by exists ""|].
  cbn [before_underscore]. destruct (Ascii.eqb c "_").
  - by exists (String c s).
  - exists post. rewrite string_app_cons. by f_equal.
Qed.

Lemma own_type_kept (L : list FileMeta) (f : FileMeta) :
  In f L -> In f (filter_charts L "" [file_type f]).
Proof.
  intros Hin. rewrite filter_charts_unfold. apply filter_In. split; [done|].
  unfold keep_test. change (lower "") with "". rewrite str_in_empty.
  cbn [list_truthy negb orb andb any existsb]. rewrite orb_false_r.
  apply str_in_iff. destruct (before_underscore_prefix (item0 f)) as [post H].
  exists "", post. exact H.
Qed.

(** X7. Every option of the type filter matches at least one chart:
    each file's type is among the options and the file passes the filter
    for its own type, so selecting any one option never gives an empty
    list; and no option holds an underscore. *)
Theorem every_type_option_matches :
  forall (L : list FileMeta),
    (forall f, In f L ->
               file_type f ∈ file_types L
               /\ In f (filter_charts L "" [file_type f]))
    /\ (forall t, t ∈ file_types L -> filter_charts L "" [t] <> [])
    /\ (forall t, t ∈ file_types L -> str_in "_" t = false).
Proof.
  intros L. split; [|split].
  - intros f Hin. split; [|by apply own_type_kept].
    unfold file_types. apply elem_of_list_to_set, list_elem_of_In.
    by apply in_map.
  - intros t Ht. unfold file_types in Ht.
    apply elem_of_list_to_set, list_elem_of_In, in_map_iff in Ht
      as (f & <- & Hin).
    intros Hnil. pose proof (own_type_kept L f Hin) as Hk.
    rewrite Hnil in Hk. destruct Hk.
  - intros t Ht. unfold file_types in Ht.
    apply elem_of_list_to_set, list_elem_of_In, in_map_iff in Ht
      as (f & <- & _).
    unfold file_type. induction (item0 f) as [|c s IH]; [done|].
    cbn [before_underscore]. destruct (Ascii.eqb_spec c "_") as [->|Hc]; [done|].
    cbn [str_in]. rewrite IH, orb_false_r.
    destruct (String.prefix "_" (String c (before_underscore s))) eqn:Hp; [|done].
    apply prefix_iff in Hp as [post Hp]. rewrite string_app_cons in Hp.
    injection Hp as -> _. done.
Qed.

Section LoadFacts.
Variable read_text : string -> result string.

End LoadFacts.

Section DirFacts.
Variable is_dir : Path -> bool.
Variable glob_json : Path -> result (list Path).

End DirFacts.

(** ** Nothing escapes *)

Section NeverRaises.
Variable read_text : string -> result string.
Variable stat : Path -> result stat_result.
Variable format_mtime : Z -> string.
Variable is_dir : Path -> bool.
Variable glob_json : Path -> result (list Path).
Variable figure : Type.
Variable from_json : string -> result figure.
Variable fig_truthy : figure -> bool.
Variable during_await : nat -> World -> World.


Lemma guarded_returns (m : M unit) (page_prefix : string)
    (msg : exn -> string) (w : World) :
  exists w',
    try_except m
      [ (Exception, fun e => handle_error page_prefix (msg e) "error") ] w
    = (Ok tt, w').
Proof.
  unfold try_except. destruct (m w) as [[[]|e] w1]; [by eexists|].
  cbn [select_clause]. rewrite isinstance_Exception, handle_error_error.
  by eexists.
Qed.

Lemma guarded_finally (m : M unit) (page_prefix field : string)
    (msg : exn -> string) (v : value) (w : World) :
  exists w1,
    try_finally
      (try_except m
         [ (Exception, fun e => handle_error page_prefix (msg e) "error") ])
      (update_session_state page_prefix field v) w
    = (Ok tt,
       mkWorld (<[page_prefix +:+ field := v]> (session_state w1)) (log w1)).
Proof.
  unfold try_finally.
  destruct (guarded_returns m page_prefix msg w) as [w1 Hw1].
  rewrite Hw1. by exists w1.
Qed.


End NeverRaises.

(** ** A batch that is left alone, and the Cancel button *)

Section Undisturbed.
Variable read_text : string -> result string.
Variable figure : Type.
Variable from_json : string -> result figure.
Variable fig_truthy : figure -> bool.
Variable during_await : nat -> World -> World.
Variable page_prefix : string.
Variable chart_height : Z.
Variable use_async : bool.

Hypothesis await_keeps_log : forall j w, log (during_await j w) = log w.
Hypothesis await_keeps_flag :
  forall j w,
    session_state (during_await j w) !! flag_key page_prefix
    = session_state w !! flag_key page_prefix.


End Undisturbed.

Section CancelFacts.
Variable read_text : string -> result string.
Variable figure : Type.
Variable from_json : string -> result figure.
Variable fig_truthy : figure -> bool.
Variable during_await : nat -> World -> World.

Lemma pagination_ignores_cancel (ui : Widgets) (page_prefix : string)
    (files : list FileMeta) (p : Z) (w : World) :
  display_pagination_controls (with_click ui CancelLoading) page_prefix files p w
  = display_pagination_controls (with_click ui NoClick) page_prefix files p w.
Proof. reflexivity. Qed.

Lemma bind_ext {A B} (m : M A) (f g : A -> M B) (w : World) :
  (forall a w', m w = (Ok a, w') -> f a w' = g a w') ->
  bind m f w = bind m g w.
Proof.
  intros H. unfold bind. destruct (m w) as [[a|e] w']; [by apply H | done].
Qed.

Lemma bind_cong_l {A B} (m1 m2 : M A) (f : A -> M B) (w : World) :
  m1 w = m2 w -> bind m1 f w = bind m2 f w.
Proof. intros H. unfold bind. by rewrite H. Qed.

Lemma state_get_inv (k : string) (w w' : World) (v : value) :
  state_get k w = (Ok v, w') -> w' = w /\ session_state w !! k = Some v.
Proof.
  unfold state_get. destruct (session_state w !! k); [|done].
  by intros [= <- <-].
Qed.

Lemma as_int_inv (v : value) (w w' : World) (n : Z) :
  as_int v w = (Ok n, w') -> w' = w.
Proof. destruct v; cbn; unfold ret, raise; by intros [= ]. Qed.

(** X14. Unless the batch flag is already set when the page is drawn,
    pressing Cancel Loading changes nothing: the batch has ended and
    cleared the flag before the button is drawn, so the run with the
    button pressed is the run without it. *)
Theorem cancel_button_has_no_effect :
  forall (ui : Widgets) (page_prefix : string) (filtered_files : list FileMeta)
         (chart_height page_size : Z) (use_async : bool) (w : World),
    (forall v, session_state w !! flag_key page_prefix = Some v ->
               truthy v = false) ->
    show_page read_text figure from_json fig_truthy during_await
      (with_click ui CancelLoading) page_prefix filtered_files chart_height
      page_size use_async w
    = show_page read_text figure from_json fig_truthy during_await
        (with_click ui NoClick) page_prefix filtered_files chart_height
        page_size use_async w.
Proof.
  intros ui page_prefix filtered_files chart_height page_size use_async w Hflag.
  unfold show_page. cbn [with_click w_selected_chart w_click].
  apply bind_ext. intros v w1 Hv. apply state_get_inv in Hv as [-> _].
  apply bind_ext. intros pn w1 Hpn. apply as_int_inv in Hpn as ->.
  cbv zeta.
  match goal with
  | |- bind ?bl ?tl w = bind ?br ?tr w => change tl with tr
  end.
  apply bind_cong_l.
  destruct (negb (list_truthy (current_page filtered_files pn page_size)));
    [reflexivity|].
  apply bind_ext. intros [] w2 Hw2.
  assert (Hs2 : session_state w2 = session_state w)
    by (by injection Hw2 as <-).
  destruct (String.eqb (w_selected_chart ui) "Show All Charts"); [|reflexivity].
  apply bind_ext. intros flag w3 Hw3. apply state_get_inv in Hw3 as [-> Hf].
  fold (flag_key page_prefix) in Hf. rewrite Hs2 in Hf.
  rewrite (Hflag flag Hf). cbn [negb].
  apply bind_ext. intros [] w3 Hw3.
  erewrite bind_ok in Hw3; [|reflexivity].
  unfold display_all_charts in Hw3.
  match type of Hw3 with
  | context [try_except ?m _] =>
      destruct (guarded_finally m page_prefix "loading_all_charts"
                  (fun e => "An unexpected error occurred while displaying charts: "
                            +:+ str_of_exn e) (VBool false)
                  (mkWorld
                     (<[page_prefix +:+ "loading_all_charts" := VBool true]>
                        (session_state w2)) (log w2)))
        as [w4' Hrun]
  end.
  rewrite Hrun in Hw3. injection Hw3 as <-.
  set (w4 := mkWorld _ _).
  assert (Hclear : session_state w4 !! flag_key page_prefix
                   = Some (VBool false)) by apply lookup_insert_eq.
  assert (Hget : state_get (page_prefix +:+ "loading_all_charts") w4
                 = (Ok (VBool false), w4)).
  { unfold state_get. fold (flag_key page_prefix). by rewrite Hclear. }
  rewrite !(bind_ok _ _ _ _ _ Hget). reflexivity.
Qed.
End CancelFacts.

(** ** Which fields a step writes *)

Section Writes.
Variable read_text : string -> result string.
Variable stat : Path -> result stat_result.
Variable format_mtime : Z -> string.
Variable is_dir : Path -> bool.
Variable glob_json : Path -> result (list Path).
Variable figure : Type.
Variable from_json : string -> result figure.
Variable fig_truthy : figure -> bool.
Variable during_await : nat -> World -> World.
Variable page_prefix : string.
Variable k : string.

Lemma writes_update (f : string) (v : value) :
  page_prefix +:+ f <> k ->
  preserves k (update_session_state page_prefix f v).
Proof. intros Hf. by apply preserves_state_set. Qed.

Lemma writes_handle_error (msg ty : string) :
  page_prefix +:+ "error" <> k ->
  preserves k (handle_error page_prefix msg ty).
Proof.
  intros Herr. unfold handle_error. apply preserves_bind.
  - by apply writes_update.
  - intros _. repeat frame_step.
Qed.

Lemma writes_load (p : Path) : preserves k (load_figure_json read_text p).
Proof. unfold load_figure_json. repeat frame_step. Qed.

Lemma writes_load_async (p : Path) :
  preserves k (load_figure_json_async read_text p).
Proof. unfold load_figure_json_async. repeat frame_step. Qed.

Lemma writes_get_file_metadata (p : Path) :
  preserves k (get_file_metadata stat format_mtime p).
Proof. unfold get_file_metadata. repeat frame_step. Qed.

Hypothesis error_apart : page_prefix +:+ "error" <> k.

Ltac writes_step :=
  lazymatch goal with
  | |- preserves _ (handle_error _ _ _) => by apply writes_handle_error
  | |- preserves _ (update_session_state _ _ _) =>
      apply writes_update; first [assumption | key_ne]
  | |- preserves _ (load_figure_json _ _) => apply writes_load
  | |- preserves _ (load_figure_json_async _ _) => apply writes_load_async
  | |- preserves _ (get_file_metadata _ _ _) => apply writes_get_file_metadata
  | |- preserves _ (display_metadata _) => apply preserves_show
  | |- preserves _ (sort_files _ _) => apply preserves_sort_files
  | |- _ => frame_step
  end.

Lemma writes_display_chart (f : FileMeta) (h : Z) (use_async : bool) :
  preserves k (display_chart read_text figure from_json fig_truthy
                 page_prefix f h use_async).
Proof. unfold display_chart. repeat writes_step. Qed.

Hypothesis await_frame :
  forall i w, session_state (during_await i w) !! k = session_state w !! k.

Lemma writes_display_loop (h : Z) (use_async : bool) (files : list FileMeta) :
  forall i,
    preserves k (display_loop read_text figure from_json fig_truthy
                   during_await page_prefix h use_async i files).
Proof.
  induction files as [|f rest IH]; intros i; cbn [display_loop].
  - apply preserves_ret.
  - apply preserves_bind; [apply preserves_state_get|]. intros flag.
    destruct (truthy flag); [|apply preserves_ret].
    apply preserves_bind; [apply preserves_show|]. intros _.
    apply preserves_bind; [apply writes_display_chart|]. intros _.
    apply preserves_bind; [exact (await_frame i)|]. intros _.
    apply IH.
Qed.

Hypothesis flag_apart : page_prefix +:+ "loading_all_charts" <> k.

Lemma writes_display_all (files : list FileMeta) (h : Z) (use_async : bool) :
  preserves k (display_all_charts read_text figure from_json fig_truthy
                 during_await page_prefix files h use_async).
Proof.
  unfold display_all_charts.
  repeat lazymatch goal with
         | |- preserves _ (display_loop _ _ _ _ _ _ _ _ _ _) =>
             apply writes_display_loop
         | |- _ => writes_step
         end.
Qed.

Hypothesis page_apart : page_prefix +:+ "page_number" <> k.

Lemma writes_pagination (ui : Widgets) (files : list FileMeta) (p : Z) :
  preserves k (display_pagination_controls ui page_prefix files p).
Proof. unfold display_pagination_controls. repeat writes_step. Qed.

Lemma writes_show_page (ui : Widgets) (files : list FileMeta) (h p : Z)
    (use_async : bool) :
  preserves k (show_page read_text figure from_json fig_truthy during_await
                 ui page_prefix files h p use_async).
Proof.
  unfold show_page.
  repeat lazymatch goal with
         | |- preserves _ (display_all_charts _ _ _ _ _ _ _ _ _) =>
             apply writes_display_all
         | |- preserves _ (display_pagination_controls _ _ _ _) =>
             apply writes_pagination
         | |- preserves _ (display_chart _ _ _ _ _ _ _ _) =>
             apply writes_display_chart
         | |- _ => writes_step
         end.
Qed.
End Writes.

Lemma sort_files_result (files : list FileMeta) (sort_by : string) (w : World) :
  sort_files files sort_by w = (Ok (sorted_files files sort_by), w).
Proof. reflexivity. Qed.

Section MainFacts.
Variable read_text : string -> result string.
Variable stat : Path -> result stat_result.
Variable format_mtime : Z -> string.
Variable is_dir : Path -> bool.
Variable glob_json : Path -> result (list Path).
Variable figure : Type.
Variable from_json : string -> result figure.
Variable fig_truthy : figure -> bool.
Variable during_await : nat -> World -> World.

Lemma load_all_files_cached (page_prefix : string) (chart_dir : Path)
    (w : World) (v : value) :
  session_state w !! (page_prefix +:+ "all_files") = Some v ->
  truthy v = true ->
  load_all_files stat format_mtime is_dir glob_json page_prefix chart_dir w
  = (Ok true, w).
Proof.
  intros Hv Ht. unfold load_all_files.
  erewrite bind_ok; [|unfold state_get; by rewrite Hv].
  by rewrite Ht.
Qed.

(** X15. Once the catalogue is in the session state, a run of [main]
    leaves it as it is: the directory is not scanned again and no later
    step writes the field. *)
Theorem main_keeps_the_catalogue :
  forall (ui : Widgets) (chart_dir : Path) (w : World) (v : value),
    let key := get_page_prefix chart_dir +:+ "all_files" in
    session_state w !! key = Some v ->
    truthy v = true ->
    (forall i w0, session_state (during_await i w0) !! key
                  = session_state w0 !! key) ->
    session_state
      (snd (main read_text stat format_mtime is_dir glob_json figure from_json
              fig_truthy during_await ui chart_dir w)) !! key
    = Some v.
Proof.
  intros ui chart_dir w v key Hv Ht Hawait. subst key.
  set (page_prefix := get_page_prefix chart_dir) in *.
  unfold main. fold page_prefix.
  erewrite bind_ok; [|apply (init_loop_union _ SESSION_STATE_VARS)].
  set (w1 := mkWorld _ _).
  assert (Hv1 : session_state w1 !! (page_prefix +:+ "all_files") = Some v)
    by (by apply lookup_union_Some_l).
  rewrite <- Hv1.
  match goal with
  | |- session_state (snd (try_except ?m [(Exception, ?h)] w1)) !! _ = _ =>
      transitivity (session_state (snd (m w1)) !! (page_prefix +:+ "all_files"))
  end.
  { unfold try_except.
    match goal with |- context [match ?x with _ => _ end] => destruct x as [[a|e] w2] end;
      [done|].
    cbn [select_clause snd]. rewrite isinstance_Exception.
    apply writes_handle_error. key_ne. }
  erewrite bind_ok; [|reflexivity].
  erewrite bind_ok; [|by eapply load_all_files_cached]. cbn [negb].
  match goal with
  | |- session_state (snd (?m ?w0)) !! ?k0 = _ =>
      change (session_state (snd (m w0)) !! k0 = session_state w0 !! k0);
      generalize w0; change (preserves k0 m)
  end.
  unfold display_filters.
  repeat lazymatch goal with
         | |- preserves _ (show_page _ _ _ _ _ _ _ _ _ _ _) =>
             apply writes_show_page; first [assumption | key_ne]
         | |- preserves _ (handle_error _ _ _) =>
             apply writes_handle_error; key_ne
         | |- preserves _ (update_session_state _ _ _) =>
             apply writes_update; key_ne
         | |- preserves _ (sort_files _ _) => apply preserves_sort_files
         | |- _ => frame_step
         end.
Qed.

Lemma main_view_key (ui : Widgets) (chart_dir : Path) (w : World)
    (L : list FileMeta) (k : string) :
  let page_prefix := get_page_prefix chart_dir in
  session_state w !! (page_prefix +:+ "all_files") = Some (VFiles L) ->
  L <> [] ->
  page_prefix +:+ "error" <> k ->
  page_prefix +:+ "loading_all_charts" <> k ->
  page_prefix +:+ "page_number" <> k ->
  (forall i w0, session_state (during_await i w0) !! k
                = session_state w0 !! k) ->
  session_state
    (snd (main read_text stat format_mtime is_dir glob_json figure from_json
            fig_truthy during_await ui chart_dir w)) !! k
  = stored_view page_prefix ui L
      (session_state w ∪ default_state page_prefix) !! k.
Proof.
  intros page_prefix HL Hne Herr Hflag Hpage Hawait.
  unfold main. fold page_prefix.
  erewrite bind_ok; [|apply (init_loop_union _ SESSION_STATE_VARS)].
  fold (default_state page_prefix).
  set (w1 := mkWorld _ _).
  assert (HL1 : session_state w1 !! (page_prefix +:+ "all_files")
                = Some (VFiles L)) by (by apply lookup_union_Some_l).
  assert (Ht : truthy (VFiles L) = true) by (by destruct L).
  match goal with
  | |- session_state (snd (try_except ?m [(Exception, ?h)] w1)) !! _ = _ =>
      transitivity (session_state (snd (m w1)) !! k)
  end.
  { unfold try_except.
    match goal with |- context [match ?x with _ => _ end] => destruct x as [[a|e] w2] end;
      [done|].
    cbn [select_clause snd]. rewrite isinstance_Exception.
    by apply writes_handle_error. }
  erewrite bind_ok; [|reflexivity].
  erewrite bind_ok; [|by eapply load_all_files_cached]. cbn [negb].
  erewrite bind_ok; [|unfold state_get; cbn [session_state log]; by rewrite HL1].
  rewrite Ht. cbn [negb].
  erewrite bind_ok; [|reflexivity].
  unfold display_filters.
  erewrite bind_ok; [|reflexivity].
  cbv beta iota.
  do 5 (erewrite bind_ok; [|reflexivity]).
  erewrite bind_ok; [|apply sort_files_result].
  erewrite bind_ok; [|reflexivity].
  erewrite bind_ok;
    [|unfold state_get; cbn [session_state]; by rewrite lookup_insert_eq].
  erewrite bind_ok; [|reflexivity].
  match goal with
  | |- session_state (snd (?m ?w0)) !! ?k0 = _ =>
      transitivity (session_state w0 !! k0);
        [generalize w0; change (preserves k0 m) | reflexivity]
  end.
  destruct (negb (list_truthy _)).
  - by apply writes_handle_error.
  - by apply writes_show_page.
Qed.

(** X16. With a catalogue in the session state, a run of [main] leaves
    the sidebar's five choices in the state, the page size raised to at
    least one, and under [filtered_files] the catalogue filtered by the
    search and the types and then sorted by the chosen key, whatever
    happens later in the run. *)
Theorem main_stores_the_view :
  forall (ui : Widgets) (chart_dir : Path) (w : World) (L : list FileMeta),
    let page_prefix := get_page_prefix chart_dir in
    let w' :=
      snd (main read_text stat format_mtime is_dir glob_json figure from_json
             fig_truthy during_await ui chart_dir w) in
    session_state w !! (page_prefix +:+ "all_files") = Some (VFiles L) ->
    L <> [] ->
    (forall f i w0,
        In f [ "search_query"; "selected_types"; "sort_by"; "page_size";
               "use_async"; "filtered_files" ] ->
        session_state (during_await i w0) !! (page_prefix +:+ f)
        = session_state w0 !! (page_prefix +:+ f)) ->
    session_state w' !! (page_prefix +:+ "search_query")
    = Some (VStr (w_search_query ui))
    /\ session_state w' !! (page_prefix +:+ "selected_types")
       = Some (VStrs (w_selected_types ui))
    /\ session_state w' !! (page_prefix +:+ "sort_by")
       = Some (VStr (w_sort_by ui))
    /\ session_state w' !! (page_prefix +:+ "page_size")
       = Some (VInt (Z.max 1 (w_page_size ui)))
    /\ session_state w' !! (page_prefix +:+ "use_async")
       = Some (VBool (w_use_async ui))
    /\ session_state w' !! (page_prefix +:+ "filtered_files")
       = Some (VFiles
                 (sorted_files
                    (filter_charts L (w_search_query ui) (w_selected_types ui))
                    (w_sort_by ui))).
Proof.
  intros ui chart_dir w L page_prefix w' HL Hne Hawait. subst w'.
  assert (Hkey : forall f,
    In f [ "search_query"; "selected_types"; "sort_by"; "page_size";
           "use_async"; "filtered_files" ] ->
    session_state
      (snd (main read_text stat format_mtime is_dir glob_json figure from_json
              fig_truthy during_await ui chart_dir w)) !! (page_prefix +:+ f)
    = stored_view page_prefix ui L
        (session_state w ∪ default_state page_prefix) !! (page_prefix +:+ f)).
  { intros f Hf.
    apply main_view_key;
      [done | done | | | | intros i w0; by apply Hawait].
    all: intros Heq; apply String.app_inj in Heq; subst f;
      cbn in Hf; intuition discriminate. }
  repeat split.
  all: rewrite Hkey by (cbn; tauto); unfold stored_view.
  all: rewrite ?lookup_insert_eq; try reflexivity.
  all: repeat (rewrite lookup_insert_ne by key_ne);
    rewrite ?lookup_insert_eq; reflexivity.
Qed.
End MainFacts.

(** ** A directory without charts *)

Section NoCharts.
Variable read_text : string -> result string.
Variable stat : Path -> result stat_result.
Variable format_mtime : Z -> string.
Variable is_dir : Path -> bool.
Variable glob_json : Path -> result (list Path).
Variable figure : Type.
Variable from_json : string -> result figure.
Variable fig_truthy : figure -> bool.
Variable during_await : nat -> World -> World.

(** X17. On a first visit, a directory without chart files gives a page
    with the title and nothing else, not even the warning that no files
    were found; a missing directory gives the title and the report that
    it was not found. In both cases the view state holds its defaults and
    the run returns before the sidebar is drawn. *)
Theorem main_without_charts :
  forall (ui : Widgets) (chart_dir : Path) (w : World),
    let page_prefix := get_page_prefix chart_dir in
    let title := Title ("Interactive - " +:+ Path_name chart_dir) in
    let msg := "Directory not found at: " +:+ Path_str chart_dir in
    (forall v, session_state w !! (page_prefix +:+ "all_files") = Some v ->
               truthy v = false) ->
    (is_dir chart_dir = true -> glob_json chart_dir = Ok [] ->
     main read_text stat format_mtime is_dir glob_json figure from_json
       fig_truthy during_await ui chart_dir w
     = (Ok tt,
        mkWorld (session_state w ∪ default_state page_prefix)
          (log w ++ [title])))
    /\ (is_dir chart_dir = false ->
        main read_text stat format_mtime is_dir glob_json figure from_json
          fig_truthy during_await ui chart_dir w
        = (Ok tt,
           mkWorld
             (<[page_prefix +:+ "error" := VStr msg]>
                (session_state w ∪ default_state page_prefix))
             (log w ++ [title; ErrorBox msg]))).
Proof.
  intros ui chart_dir w page_prefix title msg Hfalsy.
  set (w1 := mkWorld (session_state w ∪ default_state page_prefix) (log w)).
  assert (Hcat : exists v0,
    session_state w1 !! (page_prefix +:+ "all_files") = Some v0
    /\ truthy v0 = false).
  { cbn [w1 session_state].
    destruct (session_state w !! (page_prefix +:+ "all_files")) as [v|] eqn:Hv.
    - exists v. split; [by apply lookup_union_Some_l | by apply Hfalsy].
    - exists (VFiles []). split; [|done].
      rewrite lookup_union_r by done.
      apply default_state_lookup. cbn. tauto. }
  destruct Hcat as (v0 & Hv0 & Ht0).
  split.
  - intros Hdir Hglob. unfold main. fold page_prefix.
    erewrite bind_ok; [|apply (init_loop_union _ SESSION_STATE_VARS)].
    fold (default_state page_prefix). fold w1.
    unfold try_except.
    erewrite bind_ok; [|reflexivity].
    unfold load_all_files.
    erewrite bind_ok;
      [|erewrite bind_ok;
        [|unfold state_get; cbn [session_state]; by rewrite Hv0];
        rewrite Ht0; cbn [negb];
        erewrite bind_ok;
          [|unfold get_all_json_files; rewrite Hdir; cbn [negb];
            unfold try_except, lift; by rewrite Hglob];
        reflexivity].
    reflexivity.
  - intros Hdir. unfold main. fold page_prefix.
    erewrite bind_ok; [|apply (init_loop_union _ SESSION_STATE_VARS)].
    fold (default_state page_prefix). fold w1.
    unfold try_except.
    erewrite bind_ok; [|reflexivity].
    unfold load_all_files.
    erewrite bind_ok;
      [|erewrite bind_ok;
        [|unfold state_get; cbn [session_state]; by rewrite Hv0];
        rewrite Ht0; cbn [negb];
        erewrite bind_ok;
          [|unfold get_all_json_files; rewrite Hdir; cbn [negb];
            erewrite bind_ok; [|apply handle_error_error]; reflexivity];
        reflexivity].
    cbn [negb]. unfold ret. cbv beta iota. subst w1. cbn [log session_state].
    by rewrite <- app_assoc.
Qed.
End NoCharts.

(** ** These properties at work on the dashboard of [Scenario] *)

Lemma sort_files_is_stable_witness :
  let files := map Scenario.chart Scenario.names in
  let a := Scenario.chart "users_q1.json" in
  exists r,
    sort_files files "Size" Scenario.fresh = (Ok r, Scenario.fresh)
    /\ List.filter (key_eqb (IntKey (fun x => item2 x)) a) r
       = List.filter (key_eqb (IntKey (fun x => item2 x)) a) files.
Proof.
  intros files a.
  exact (sort_files_is_stable files "Size" (IntKey (fun x => item2 x))
           Scenario.fresh a eq_refl).
Defined.

Lemma sort_files_twice_witness :
  let files := map Scenario.chart Scenario.names in
  exists r,
    sort_files files "Last Modified" Scenario.fresh = (Ok r, Scenario.fresh)
    /\ sort_files r "Last Modified" Scenario.fresh = (Ok r, Scenario.fresh).
Proof.
  intros files.
  exact (sort_files_twice files "Last Modified" (StrKey (fun x => item1 x))
           Scenario.fresh eq_refl).
Defined.

Lemma current_page_sizes_witness :
  let l := map Scenario.chart Scenario.names in
  0 < 5
  /\ length (current_page l (Z.of_nat 2) 5)
     = Nat.min (Z.to_nat 5) (length l - 2 * Z.to_nat 5).
Proof.
  intros l. split; [lia|].
  exact (proj1 (current_page_sizes l 5 2 ltac:(lia))).
Defined.



Lemma cancel_button_has_no_effect_witness :
  let prefix := get_page_prefix Scenario.dir in
  let files := map Scenario.chart Scenario.names in
  let w := snd (init_session_state prefix Scenario.fresh) in
  show_page Scenario.read_text unit Scenario.from_json Scenario.fig_truthy
    Scenario.undisturbed
    (with_click (Scenario.browse "" NoClick) CancelLoading)
    prefix files 600 5 false w
  = show_page Scenario.read_text unit Scenario.from_json Scenario.fig_truthy
      Scenario.undisturbed
      (with_click (Scenario.browse "" NoClick) NoClick)
      prefix files 600 5 false w.
Proof.
  intros prefix files w.
  apply cancel_button_has_no_effect.
  intros v Hv. vm_compute in Hv. injection Hv as <-. reflexivity.
Defined.

Lemma main_keeps_the_catalogue_witness :
  let w1 := Scenario.run (Scenario.browse "" NoClick) Scenario.fresh in
  let w2 := Scenario.run (Scenario.browse "costs" Next) w1 in
  session_state w2 !! Scenario.key "all_files"
  = Some (VFiles (map Scenario.chart Scenario.names)).
Proof.
  intros w1 w2.
  apply (main_keeps_the_catalogue Scenario.read_text Scenario.stat
           Scenario.format_mtime Scenario.is_dir Scenario.glob_json unit
           Scenario.from_json Scenario.fig_truthy Scenario.undisturbed
           (Scenario.browse "costs" Next) Scenario.dir w1).
  - vm_compute. reflexivity.
  - reflexivity.
  - reflexivity.
Defined.

Lemma main_stores_the_view_witness :
  let w1 := Scenario.run (Scenario.browse "" NoClick) Scenario.fresh in
  let w2 := Scenario.run (Scenario.browse "costs" Next) w1 in
  session_state w2 !! Scenario.key "search_query" = Some (VStr "costs")
  /\ session_state w2 !! Scenario.key "filtered_files"
     = Some (VFiles
               (sorted_files
                  (filter_charts (map Scenario.chart Scenario.names)
                     "costs" [])
                  "Name")).
Proof.
  intros w1 w2.
  destruct (main_stores_the_view Scenario.read_text Scenario.stat
              Scenario.format_mtime Scenario.is_dir Scenario.glob_json unit
              Scenario.from_json Scenario.fig_truthy Scenario.undisturbed
              (Scenario.browse "costs" Next) Scenario.dir w1
              (map Scenario.chart Scenario.names))
    as (Hq & _ & _ & _ & _ & Hf).
  - vm_compute. reflexivity.
  - discriminate.
  - reflexivity.
  - split; [exact Hq | exact Hf].
Defined.

Lemma main_without_charts_witness :
  let empty_dir (d : Path) := true in
  let no_dir (d : Path) := false in
  let nothing (d : Path) : result (list Path) := Ok [] in
  let prefix := get_page_prefix Scenario.dir in
  main Scenario.read_text Scenario.stat Scenario.format_mtime empty_dir
    nothing unit Scenario.from_json Scenario.fig_truthy Scenario.undisturbed
    (Scenario.browse "" NoClick) Scenario.dir Scenario.fresh
  = (Ok tt,
     mkWorld (∅ ∪ default_state prefix) [Title "Interactive - sales"])
  /\ log (snd (main Scenario.read_text Scenario.stat Scenario.format_mtime
                 no_dir nothing unit Scenario.from_json Scenario.fig_truthy
                 Scenario.undisturbed (Scenario.browse "" NoClick)
                 Scenario.dir Scenario.fresh))
     = [ Title "Interactive - sales";
         ErrorBox "Directory not found at: assets/sales" ].
Proof.
  intros empty_dir no_dir nothing prefix.
  assert (Hfresh : forall v,
    session_state Scenario.fresh !! (prefix +:+ "all_files") = Some v ->
    truthy v = false).
  { intros v Hv. cbn [Scenario.fresh session_state] in Hv.
    rewrite lookup_empty in Hv. discriminate. }
  split.
  - exact (proj1 (main_without_charts Scenario.read_text Scenario.stat
                    Scenario.format_mtime empty_dir nothing unit
                    Scenario.from_json Scenario.fig_truthy Scenario.undisturbed
                    (Scenario.browse "" NoClick) Scenario.dir Scenario.fresh
                    Hfresh) eq_refl eq_refl).
  - rewrite (proj2 (main_without_charts Scenario.read_text Scenario.stat
                      Scenario.format_mtime no_dir nothing unit
                      Scenario.from_json Scenario.fig_truthy
                      Scenario.undisturbed (Scenario.browse "" NoClick)
                      Scenario.dir Scenario.fresh Hfresh) eq_refl).
    reflexivity.
Defined.
